(** * The terminal screen buffer of aminal (buffer/buffer.go)

    A shallow embedding of the [Buffer] type and its methods, and the
    properties of the buffer that its specification states.

    Conventions of the embedding.
    - [uint16] and [int16] values are integers in [Z]; every operation the
      source performs on them is written with its wrap-around ([u16], [i16]).
    - [int] and [uint64] values are slice lengths, or a length plus a
      [uint16]; no slice of the program comes near 2^63 elements, so these
      values are integers in [Z] and their arithmetic is exact.
    - A method with a pointer receiver is a function from the buffer to an
      [outcome]: the value returned with the buffer it leaves, a run-time
      panic, or a loop that never exits.
    - A pointer to an element of [buffer.lines] is the element's index. *)

From stdpp Require Import base numbers list.

Local Open Scope Z_scope.

(** ** Machine integers *)

Definition u16 (z : Z) : Z := z mod 65536.

Definition i16 (z : Z) : Z := (z + 32768) mod 65536 - 32768.

Definition is_u16 (z : Z) : Prop := 0 <= z < 65536.

Definition is_i16 (z : Z) : Prop := -32768 <= z < 32768.

(** A Go [rune] is an [int32] code point. *)
Definition rune : Type := Z.

(** ** Go slices

    A slice is a window on a backing array: [elems] are the [len] elements
    in the window, [spare] the elements of the array after the window, up to
    the capacity. Re-slicing [s[:k]] may move the window's end anywhere up
    to the capacity, so the spare elements can be seen again. *)

Record slice (A : Type) : Type := Slice { elems : list A; spare : list A }.

Arguments Slice {A} elems spare.
Arguments elems {A} s.
Arguments spare {A} s.

Definition len {A} (s : slice A) : Z := Z.of_nat (length (elems s)).

Definition cap {A} (s : slice A) : Z :=
  Z.of_nat (length (elems s) + length (spare s)).

(** The literal [[]T{}]. *)
Definition emptySlice {A} : slice A := Slice [] [].

(** [s[:k]]: in range when [0 <= k <= cap(s)]. *)
Definition sliceTo {A} (s : slice A) (k : Z) : option (slice A) :=
  if (0 <=? k) && (k <=? cap s) then
    let array := elems s ++ spare s in
    Some (Slice (take (Z.to_nat k) array) (drop (Z.to_nat k) array))
  else None.

(** [s[k:]]: in range when [0 <= k <= len(s)]. *)
Definition sliceFrom {A} (s : slice A) (k : Z) : option (slice A) :=
  if (0 <=? k) && (k <=? len s) then
    Some (Slice (drop (Z.to_nat k) (elems s)) (spare s))
  else None.

(** [l[i]] for a list that stands for a slice's window. *)
Definition index {A} (l : list A) (i : Z) : option A :=
  if i <? 0 then None else l !! Z.to_nat i.

(** ** What the program takes from outside buffer.go

    [CellAttributes] is declared in another file of the package: it is a
    plain value type, and the buffer only copies it. [zeroAttr] is its zero
    value. [growslice] is the Go run time's choice of a new capacity when
    [append] finds the backing array of a slice full (its argument is the old
    capacity); the model uses at least the old capacity plus one. *)

Class GoEnv : Type := {
  CellAttributes : Type;
  zeroAttr : CellAttributes;
  growslice : nat -> nat
}.

Section Model.

Context `{GoEnv}.

(** ** Cell and Line *)

(** Modelled from the spec: the [Cell] type of the package (cell.go is not
    part of the sources at hand): one glyph and its display attributes. *)
Record Cell : Type := mkCell { cell_rune : rune; cell_attr : CellAttributes }.

(** Modelled from the spec: the blank marker a cell is reset to. The spec
    does not give its value; the zero rune is taken. *)
Definition blankRune : rune := 0.

(** The zero value [Cell{}], which fills a fresh backing array. *)
Definition zeroCell : Cell := mkCell 0 zeroAttr.

(** Modelled from the spec: [newCell()] yields a blank cell. *)
Definition newCell : Cell := mkCell blankRune zeroAttr.

(** Modelled from the spec: [setRune(r)] stores the glyph. *)
Definition setRune (r : rune) (c : Cell) : Cell := mkCell r (cell_attr c).

(** Modelled from the spec: [erase()] resets the glyph to the blank marker
    and leaves the attributes alone. *)
Definition erase (c : Cell) : Cell := setRune blankRune c.

(** [append(s, x)] on a slice of cells: [x] takes the first spare place of
    the backing array; when there is none, the cells move to a new array of
    the capacity the run time chooses, zeroed after [x]. *)
Definition appendCell (s : slice Cell) (x : Cell) : slice Cell :=
  Slice (elems s ++ [x])
    match spare s with
    | _ :: rest => rest
    | [] =>
        let n := length (elems s) in
        replicate (growslice n - S n)%nat zeroCell
    end.

(** Modelled from the spec: the [Line] type of the package (line.go is not
    part of the sources at hand): the cells of a row and the flag that marks
    the row as the continuation of the previous one. *)
Record Line : Type := mkLine { cells : slice Cell; wrapped : bool }.

(** Modelled from the spec: [newLine()] yields an empty cell sequence and
    [wrapped = false]. *)
Definition newLine : Line := mkLine emptySlice false.

(** Modelled from the spec: [setWrapped(w)] sets the continuation flag. *)
Definition setWrapped (w : bool) (l : Line) : Line := mkLine (cells l) w.

Definition setCells (cs : slice Cell) (l : Line) : Line := mkLine cs (wrapped l).

(** ** The buffer *)

(** A channel is known by its identity only. *)
Definition chan : Type := nat.

Record Buffer : Type := mkBuffer {
  lines : list Line;
  cursorX : Z;
  cursorY : Z;
  viewHeight : Z;
  viewWidth : Z;
  cursorAttr : CellAttributes;
  displayChangeHandlers : list chan
}.

(** [buffer.lines] is only appended to and indexed, never re-sliced, so its
    capacity is not observable and a list stands for it. *)

Definition withLines (ls : list Line) (b : Buffer) : Buffer :=
  mkBuffer ls (cursorX b) (cursorY b) (viewHeight b) (viewWidth b)
    (cursorAttr b) (displayChangeHandlers b).

Definition withCursorX (x : Z) (b : Buffer) : Buffer :=
  mkBuffer (lines b) x (cursorY b) (viewHeight b) (viewWidth b)
    (cursorAttr b) (displayChangeHandlers b).

Definition withCursorY (y : Z) (b : Buffer) : Buffer :=
  mkBuffer (lines b) (cursorX b) y (viewHeight b) (viewWidth b)
    (cursorAttr b) (displayChangeHandlers b).

Definition withView (w h : Z) (b : Buffer) : Buffer :=
  mkBuffer (lines b) (cursorX b) (cursorY b) h w
    (cursorAttr b) (displayChangeHandlers b).


(** ** Outcomes of a method call *)

Inductive fault : Type :=
| IndexOutOfRange
| SliceBoundsOutOfRange.

Inductive outcome (A : Type) : Type :=
| Done (a : A) (b : Buffer)
| Panic (f : fault)
| Hang.

Arguments Done {A} a b.
Arguments Panic {A} f.
Arguments Hang {A}.

Definition M (A : Type) : Type := Buffer -> outcome A.

Definition ret {A} (a : A) : M A := fun b => Done a b.

Definition bind {A B} (m : M A) (k : A -> M B) : M B :=
  fun b =>
    match m b with
    | Done a b' => k a b'
    | Panic f => Panic f
    | Hang => Hang
    end.

Definition andThen {A} (m : M unit) (k : M A) : M A := bind m (fun _ => k).

(** ** Queries *)

Definition CursorColumn (b : Buffer) : Z := cursorX b.

Definition CursorLine (b : Buffer) : Z := cursorY b.

Definition Width (b : Buffer) : Z := viewWidth b.

Definition ViewWidth (b : Buffer) : Z := viewWidth b.

Definition ViewHeight (b : Buffer) : Z := viewHeight b.

Definition Height (b : Buffer) : Z := Z.of_nat (length (lines b)).

Definition convertViewLineToRawLine (b : Buffer) (viewLine : Z) : Z :=
  let rawHeight := Height b in
  if viewHeight b >? rawHeight then viewLine
  else viewLine + (rawHeight - viewHeight b).

Definition RawLine (b : Buffer) : Z := convertViewLineToRawLine b (cursorY b).

(** [GetCell] returns a pointer to the cell, or nil: the cell pointed to, or
    [None]. The arguments are [int]; the row is converted to [uint16]. *)
Definition GetCell (viewCol viewRow : Z) : M (option Cell) :=
  fun b =>
    let rawLine := convertViewLineToRawLine b (u16 viewRow) in
    if (viewCol <? 0) || (rawLine <? 0) || (rawLine >=? Height b) then
      Done None b
    else
      match index (lines b) rawLine with
      | None => Panic IndexOutOfRange
      | Some line =>
          if viewCol >=? len (cells line) then Done None b
          else
            match index (elems (cells line)) viewCol with
            | None => Panic IndexOutOfRange
            | Some c => Done (Some c) b
            end
      end.

(** The loop of [GetVisibleLines]: [n] iterations from index [i]. *)
Fixpoint visibleLoop (n : nat) (i : Z) (ls acc : list Line) : list Line :=
  match n with
  | O => acc
  | S n' =>
      visibleLoop n' (i + 1) ls
        (if (i >=? 0) && (i <? Z.of_nat (length ls)) then
           match index ls i with
           | Some l => acc ++ [l]
           | None => acc
           end
         else acc)
  end.

(** The loop runs from [Height() - ViewHeight()] up to [Height()]. *)
Definition GetVisibleLines (b : Buffer) : list Line :=
  let start := Height b - ViewHeight b in
  visibleLoop (Z.to_nat (Height b - start)) start (lines b) [].

(** ** Mutators *)

Definition appendLine (l : Line) (b : Buffer) : Buffer :=
  withLines (lines b ++ [l]) b.

(** A write through a pointer to [buffer.lines[p]]. *)
Definition modifyLine (p : Z) (f : Line -> Line) : M unit :=
  fun b =>
    match index (lines b) p with
    | None => Panic IndexOutOfRange
    | Some line => Done tt (withLines (<[Z.to_nat p := f line]> (lines b)) b)
    end.

(** The loop of [ensureLinesExistToRawHeight], run for at most [fuel] tests
    of its condition; [None] when the condition still holds after them. *)
Fixpoint ensureLoop (fuel : nat) (b : Buffer) : option Buffer :=
  match fuel with
  | O => None
  | S fuel' =>
      if RawLine b >=? Height b then ensureLoop fuel' (appendLine newLine b)
      else Some b
  end.

(** When the loop exits at all it exits within [cursorY + 2] tests
    ([ensureLoop_exits]); when the cursor row is not a row of the view it
    never exits, whatever the number of tests ([ensureLoop_never_exits]). *)
Definition ensureLinesExistToRawHeight : M unit :=
  fun b =>
    match ensureLoop (Z.to_nat (cursorY b) + 2) b with
    | Some b' => Done tt b'
    | None => Hang
    end.

Definition incrementCursorPosition : M unit :=
  fun b =>
    if u16 (CursorColumn b + 1) <? Width b then
      Done tt (withCursorX (u16 (cursorX b + 1)) b)
    else if cursorY b =? u16 (viewHeight b - 1) then
      let line := setWrapped true newLine in
      Done tt (withCursorX 0 (appendLine line b))
    else
      let b1 := withCursorX 0 b in
      if Height b1 <? ViewHeight b1 then
        let line := setWrapped true newLine in
        let b2 := appendLine line b1 in
        Done tt (withCursorY (u16 (cursorY b2 + 1)) b2)
      else
        modifyLine (RawLine b1) (setWrapped true) b1.

(** The error value of [getCurrentLine], with the row it reports. *)
Inductive error : Type := LineDoesNotExist (row : Z).

Definition getCurrentLine (b : Buffer) : Z + error :=
  if RawLine b <? Height b then inl (RawLine b)
  else inr (LineDoesNotExist (cursorY b)).

Definition CarriageReturn : M unit :=
  fun b =>
    match getCurrentLine b with
    | inr _ => Done tt (withCursorX 0 b)
    | inl p =>
        match index (lines b) p with
        | None => Panic IndexOutOfRange
        | Some line =>
            if (cursorX b =? 0) && wrapped line then
              Done tt (withCursorY (u16 (cursorY b - 1)) b)
            else Done tt (withCursorX 0 b)
        end
    end.

(** The part of [NewLine] after its first [if]. *)
Definition newLineAdvance (b : Buffer) : Buffer :=
  if cursorY b =? u16 (viewHeight b - 1) then
    withCursorX 0 (appendLine newLine b)
  else
    let b1 := withCursorX 0 b in
    withCursorY (u16 (cursorY b1 + 1)) b1.

Definition NewLine : M unit :=
  fun b =>
    if cursorX b =? 0 then
      match index (lines b) (RawLine b) with
      | None => Panic IndexOutOfRange
      | Some line =>
          if wrapped line then modifyLine (RawLine b) (setWrapped false) b
          else Done tt (newLineAdvance b)
      end
    else Done tt (newLineAdvance b).

(** The reports to the logger are not part of the buffer and are left out. *)
Definition SetPosition (col line : Z) : M unit :=
  fun b =>
    let col := if col >=? ViewWidth b then u16 (ViewWidth b - 1) else col in
    let line := if line >=? ViewHeight b then u16 (ViewHeight b - 1) else line in
    Done tt (withCursorY line (withCursorX col b)).

(** [x] and [y] are [int16]. *)
Definition MovePosition (x y : Z) : M unit :=
  fun b =>
    let x := if i16 (i16 (cursorX b) + x) <? 0 then i16 (- i16 (cursorX b)) else x in
    let y := if i16 (i16 (cursorY b) + y) <? 0 then i16 (- i16 (cursorY b)) else y in
    SetPosition (u16 (i16 (i16 (cursorX b) + x))) (u16 (i16 (i16 (cursorY b) + y))) b.

(** The loop of [Clear]: [n] appends of a new line. *)
Fixpoint appendNewLines (n : nat) (b : Buffer) : Buffer :=
  match n with
  | O => b
  | S n' => appendNewLines n' (appendLine newLine b)
  end.

Definition Clear : M unit :=
  fun b => SetPosition 0 0 (appendNewLines (Z.to_nat (ViewHeight b)) b).

Definition ResizeView (width height : Z) : M unit :=
  fun b => Done tt (withView width height b).

(** [NewBuffer] calls [ResizeView] on the record it has built; the result is
    written out here ([NewBuffer_ResizeView]). *)
Definition NewBuffer (viewCols viewLines : Z) (attr : CellAttributes) : Buffer :=
  mkBuffer [] 0 0 viewLines viewCols attr [].

(** ** Erasing *)

Definition EraseLine : M unit :=
  fun b =>
    match getCurrentLine b with
    | inr _ => Done tt b
    | inl p => modifyLine p (setCells emptySlice) b
    end.

(** [n] iterations, from index [i], of: erase cell [i] when it is there. *)
Fixpoint eraseLoop (n : nat) (i : Z) (cs : slice Cell) : slice Cell :=
  match n with
  | O => cs
  | S n' =>
      eraseLoop n' (i + 1)
        (if i <? len cs then Slice (alter erase (Z.to_nat i) (elems cs)) (spare cs)
         else cs)
  end.

(** The loop runs for [i] from [0] to [cursorX] included. *)
Definition EraseLineToCursor : M unit :=
  fun b =>
    match getCurrentLine b with
    | inr _ => Done tt b
    | inl p =>
        modifyLine p
          (fun line => setCells (eraseLoop (Z.to_nat (cursorX b + 1)) 0 (cells line)) line) b
    end.

(** The loop runs for [i] from [cursorX + 1] (a [uint16] sum) while
    [i < len(line.cells)]. *)
Definition EraseLineAfterCursor : M unit :=
  fun b =>
    match getCurrentLine b with
    | inr _ => Done tt b
    | inl p =>
        let start := u16 (cursorX b + 1) in
        modifyLine p
          (fun line =>
             setCells (eraseLoop (Z.to_nat (len (cells line) - start)) start (cells line)) line) b
    end.

(** [n] iterations, from index [i], of: empty the cells of line [i] when it
    is there. *)
Fixpoint clearLoop (n : nat) (i : Z) (ls : list Line) : list Line :=
  match n with
  | O => ls
  | S n' =>
      clearLoop n' (i + 1)
        (if i <? Z.of_nat (length ls) then alter (setCells emptySlice) (Z.to_nat i) ls
         else ls)
  end.

Definition EraseDisplayAfterCursor : M unit :=
  fun b =>
    match getCurrentLine b with
    | inr _ => Done tt b
    | inl p =>
        match index (lines b) p with
        | None => Panic IndexOutOfRange
        | Some line =>
            match sliceTo (cells line) (cursorX b) with
            | None => Panic SliceBoundsOutOfRange
            | Some cs =>
                let b1 := withLines (<[Z.to_nat p := setCells cs line]> (lines b)) b in
                let start := RawLine b1 + 1 in
                Done tt (withLines (clearLoop (Z.to_nat (Height b1 - start)) start (lines b1)) b1)
            end
        end
    end.

Definition EraseDisplayToCursor : M unit :=
  fun b =>
    match getCurrentLine b with
    | inr _ => Done tt b
    | inl p =>
        match index (lines b) p with
        | None => Panic IndexOutOfRange
        | Some line =>
            match sliceFrom (cells line) (u16 (cursorX b + 1)) with
            | None => Panic SliceBoundsOutOfRange
            | Some cs =>
                let b1 := withLines (<[Z.to_nat p := setCells cs line]> (lines b)) b in
                Done tt (withLines (clearLoop (Z.to_nat (RawLine b1)) 0 (lines b1)) b1)
            end
        end
    end.

(** ** Writing *)

(** The inner loop of [Write]: at most [n] appends of a new cell, while the
    column is not yet a cell of the line. *)
Fixpoint extendLoop (n : nat) (col : Z) (cs : slice Cell) : slice Cell :=
  match n with
  | O => cs
  | S n' => if col >=? len cs then extendLoop n' col (appendCell cs newCell) else cs
  end.

(** The body of [Write]'s loop for a rune that is neither 0x0a nor 0x0d. The
    inner loop appends [cursorX + 1 - len] cells when that is positive. *)
Definition putRune (r : rune) : M unit :=
  fun b =>
    let p := RawLine b in
    match index (lines b) p with
    | None => Panic IndexOutOfRange
    | Some line =>
        let col := CursorColumn b in
        let cs := extendLoop (Z.to_nat (col + 1 - len (cells line))) col (cells line) in
        match index (elems cs) col with
        | None => Panic IndexOutOfRange
        | Some cell =>
            let cell := mkCell (cell_rune (setRune r cell)) (cursorAttr b) in
            let cs := Slice (<[Z.to_nat col := cell]> (elems cs)) (spare cs) in
            incrementCursorPosition
              (withLines (<[Z.to_nat p := setCells cs line]> (lines b)) b)
        end
    end.

Definition writeRune (r : rune) : M unit :=
  andThen ensureLinesExistToRawHeight
    (if r =? 10 then NewLine
     else if r =? 13 then CarriageReturn
     else putRune r).

(** The runes [Write] stores in a cell: all but line feed and carriage
    return. *)
Definition plain (r : rune) : Prop := r <> 10 /\ r <> 13.

Fixpoint Write (runes : list rune) : M unit :=
  match runes with
  | [] => ret tt
  | r :: rest => andThen (writeRune r) (Write rest)
  end.

(** ** Calls of the public mutators *)

Inductive call : Type :=
| CallWrite (runes : list rune)
| CallNewLine
| CallCarriageReturn
| CallSetPosition (col line : Z)
| CallMovePosition (x y : Z)
| CallClear
| CallResizeView (width height : Z)
| CallEraseLine
| CallEraseLineToCursor
| CallEraseLineAfterCursor
| CallEraseDisplayAfterCursor
| CallEraseDisplayToCursor.

Definition perform (c : call) : M unit :=
  match c with
  | CallWrite runes => Write runes
  | CallNewLine => NewLine
  | CallCarriageReturn => CarriageReturn
  | CallSetPosition col line => SetPosition col line
  | CallMovePosition x y => MovePosition x y
  | CallClear => Clear
  | CallResizeView w h => ResizeView w h
  | CallEraseLine => EraseLine
  | CallEraseLineToCursor => EraseLineToCursor
  | CallEraseLineAfterCursor => EraseLineAfterCursor
  | CallEraseDisplayAfterCursor => EraseDisplayAfterCursor
  | CallEraseDisplayToCursor => EraseDisplayToCursor
  end.

(** The arguments of a call have the types the method declares. *)
Definition wellTyped (c : call) : Prop :=
  match c with
  | CallSetPosition col line => is_u16 col /\ is_u16 line
  | CallMovePosition x y => is_i16 x /\ is_i16 y
  | CallResizeView w h => is_u16 w /\ is_u16 h
  | _ => True
  end.

Fixpoint performAll (cs : list call) : M unit :=
  match cs with
  | [] => ret tt
  | c :: rest => andThen (perform c) (performAll rest)
  end.

(** The buffers a program can hold: a new buffer, and what a well-typed call
    that returns leaves of one. *)
Inductive reachable : Buffer -> Prop :=
| reachable_new (w h : Z) (attr : CellAttributes) :
    is_u16 w -> is_u16 h -> reachable (NewBuffer w h attr)
| reachable_call (b b' : Buffer) (c : call) :
    reachable b -> wellTyped c -> perform c b = Done tt b' -> reachable b'.

(** The cursor is on a cell of the view, and the view's size is a pair of
    [uint16] values. *)
Definition inView (b : Buffer) : Prop :=
  0 <= cursorX b < viewWidth b /\ 0 <= cursorY b < viewHeight b /\
  viewWidth b < 65536 /\ viewHeight b < 65536.

(** [b'] has the cursor and the view of [b]. *)
Definition sameCursor (b b' : Buffer) : Prop :=
  cursorX b' = cursorX b /\ cursorY b' = cursorY b /\
  viewWidth b' = viewWidth b /\ viewHeight b' = viewHeight b.

(** The calls other than [CarriageReturn], [ResizeView], and a [Write] of a
    carriage return. *)
Definition keepsCursorInView (c : call) : Prop :=
  match c with
  | CallCarriageReturn => False
  | CallResizeView _ _ => False
  | CallWrite runes => Forall (fun r => r <> 13) runes
  | _ => True
  end.

(** [attachDisplayChangeHandler]: the nil test only replaces a nil slice by
    an empty one before the append. *)
Definition attachDisplayChangeHandler (handler : chan) : M unit :=
  fun b =>
    Done tt
      (mkBuffer (lines b) (cursorX b) (cursorY b) (viewHeight b) (viewWidth b)
         (cursorAttr b) (displayChangeHandlers b ++ [handler])).

(** Whether the cursor's line is in the scrollback and marked wrapped. *)
Definition currentLineWrapped (b : Buffer) : bool :=
  match index (lines b) (RawLine b) with
  | Some line => wrapped line
  | None => false
  end.

(** [b'] has the view, the cursor attribute and the handlers of [b], and a
    scrollback at least as long. *)
Definition extends (b b' : Buffer) : Prop :=
  Height b <= Height b' /\
  viewWidth b' = viewWidth b /\ viewHeight b' = viewHeight b /\
  cursorAttr b' = cursorAttr b /\
  displayChangeHandlers b' = displayChangeHandlers b.

(** The calls other than [ResizeView]. *)
Definition keepsView (c : call) : Prop :=
  match c with
  | CallResizeView _ _ => False
  | _ => True
  end.

End Model.

Arguments Done {H A} a b.
Arguments Panic {H A} f.
Arguments Hang {H A}.

(** An environment to run the model in: attributes are numbers, and a full
    backing array doubles. *)
Definition exampleEnv : GoEnv :=
  {| CellAttributes := Z; zeroAttr := 0; growslice := fun n => Nat.max 1 (2 * n) |}.

(** The buffer that a sequence of calls leaves ([b] itself when one of them
    does not return). *)
Definition stateAfter `{GoEnv} (cs : list call) (b : Buffer) : Buffer :=
  match performAll cs b with
  | Done _ b' => b'
  | _ => b
  end.

(** A new buffer in that environment, with attribute 0. *)
Definition exampleBuffer (viewCols viewLines : Z) : @Buffer exampleEnv :=
  @NewBuffer exampleEnv viewCols viewLines 0.

(** A cell with attribute 0 in that environment. *)
Definition exampleCell (r : rune) : @Cell exampleEnv := @mkCell exampleEnv r 0.

(** The cursor's line, or a new line when it is not in the scrollback. *)
Definition currentLine `{GoEnv} (b : Buffer) : Line :=
  match index (lines b) (RawLine b) with
  | Some line => line
  | None => newLine
  end.

(** Three runes written on a view of 80 columns and 24 rows. *)
Definition exampleRow : @Buffer exampleEnv :=
  stateAfter [CallWrite [97; 98; 99]] (exampleBuffer 80 24).

(** Three lines written on a view of 80 columns and 2 rows. *)
Definition exampleScrolled : @Buffer exampleEnv :=
  stateAfter [CallWrite [97; 10; 98; 10; 99]] (exampleBuffer 80 2).


Section Properties.

Context `{GoEnv}.

(** ** Lists indexed by integers *)

Lemma index_Some {A} (l : list A) (i : Z) (x : A) :
  index l i = Some x <-> 0 <= i /\ l !! Z.to_nat i = Some x.
Proof.
  unfold index. destruct (Z.ltb_spec i 0) as [Hi | Hi].
  - split; [done | lia].
  - split; [intros Hx; split; [lia | done] | tauto].
Qed.

Lemma index_in_range {A} (l : list A) (i : Z) :
  0 <= i < Z.of_nat (length l) -> exists x, index l i = Some x.
Proof.
  intros Hi. destruct (lookup_lt_is_Some_2 l (Z.to_nat i)) as [x Hx]; [lia|].
  exists x. apply index_Some. split; [lia | done].
Qed.

Lemma index_lt {A} (l : list A) (i : Z) (x : A) :
  index l i = Some x -> 0 <= i < Z.of_nat (length l).
Proof.
  intros [Hi Hx]%index_Some. apply lookup_lt_Some in Hx. lia.
Qed.

(** ** The mapping from view rows to raw lines *)

Lemma convertViewLineToRawLine_max (b : Buffer) (r : Z) :
  convertViewLineToRawLine b r = r + Z.max 0 (Height b - viewHeight b).
Proof.
  unfold convertViewLineToRawLine.
  rewrite Z.gtb_ltb. destruct (Z.ltb_spec (Height b) (viewHeight b)); lia.
Qed.

Lemma RawLine_max (b : Buffer) :
  RawLine b = cursorY b + Z.max 0 (Height b - viewHeight b).
Proof. apply convertViewLineToRawLine_max. Qed.

(** C3. The raw line of a view row [r] is [r + max(0, rawHeight -
    viewHeight)], where [rawHeight] is [Height()]; [RawLine()] is that line
    for the cursor's row. *)
Theorem raw_line_mapping (b : Buffer) (r : Z) :
  convertViewLineToRawLine b r = r + Z.max 0 (Height b - viewHeight b) /\
  RawLine b = cursorY b + Z.max 0 (Height b - viewHeight b).
Proof. split; [apply convertViewLineToRawLine_max | apply RawLine_max]. Qed.

(** ** Cursor positioning *)

(** C6. On a view of positive width and height, [SetPosition] stores the
    last valid column for a column at or beyond the width, and the last valid
    row for a row at or beyond the height; a target inside the view is stored
    as it is. So [SetPosition(viewWidth, 0)] leaves the cursor on column
    [viewWidth - 1]. *)
Theorem SetPosition_clamps (b : Buffer) (col line : Z) :
  0 < viewWidth b < 65536 ->
  0 < viewHeight b < 65536 ->
  exists b',
    SetPosition col line b = Done tt b' /\
    (viewWidth b <= col -> cursorX b' = viewWidth b - 1) /\
    (viewHeight b <= line -> cursorY b' = viewHeight b - 1) /\
    (col < viewWidth b -> cursorX b' = col) /\
    (line < viewHeight b -> cursorY b' = line) /\
    lines b' = lines b /\ viewWidth b' = viewWidth b /\ viewHeight b' = viewHeight b.
Proof.
  intros Hw Hh. eexists. split; [reflexivity|].
  unfold ViewWidth, ViewHeight, u16. cbn.
  rewrite !Z.geb_leb.
  destruct (Z.leb_spec (viewWidth b) col), (Z.leb_spec (viewHeight b) line);
    repeat split; intros; try lia; rewrite Z.mod_small; lia.
Qed.

(** ** Erasing when the cursor's line does not exist *)

Lemma getCurrentLine_missing (b : Buffer) :
  RawLine b >= Height b -> getCurrentLine b = inr (LineDoesNotExist (cursorY b)).
Proof.
  intros Hge. unfold getCurrentLine.
  destruct (Z.ltb_spec (RawLine b) (Height b)); [lia | done].
Qed.

(** C7. When the cursor's raw line is not in the scrollback ([RawLine() >=
    Height()]), each of the five erase operations returns and leaves the
    buffer as it was. *)
Theorem erase_missing_line_noop (b : Buffer) :
  RawLine b >= Height b ->
  EraseLine b = Done tt b /\
  EraseLineToCursor b = Done tt b /\
  EraseLineAfterCursor b = Done tt b /\
  EraseDisplayAfterCursor b = Done tt b /\
  EraseDisplayToCursor b = Done tt b.
Proof.
  intros Hge. apply getCurrentLine_missing in Hge.
  unfold EraseLine, EraseLineToCursor, EraseLineAfterCursor,
    EraseDisplayAfterCursor, EraseDisplayToCursor.
  rewrite Hge. repeat split.
Qed.

(** ** Reading a cell *)

(** C9. [GetCell] returns and leaves the buffer as it was, whatever its
    arguments. Its result is nil when the column is negative, when the raw
    line of the row is outside the scrollback, and when the column is at or
    beyond the number of cells of the line; otherwise it is the cell. *)
Theorem GetCell_read_only (b : Buffer) (col row : Z) :
  (exists r, GetCell col row b = Done r b) /\
  (col < 0 \/ convertViewLineToRawLine b (u16 row) < 0 \/
   Height b <= convertViewLineToRawLine b (u16 row) ->
   GetCell col row b = Done None b) /\
  (forall line,
     index (lines b) (convertViewLineToRawLine b (u16 row)) = Some line ->
     (len (cells line) <= col -> GetCell col row b = Done None b) /\
     (forall c, index (elems (cells line)) col = Some c ->
                GetCell col row b = Done (Some c) b)).
Proof.
  unfold GetCell. set (raw := convertViewLineToRawLine b (u16 row)).
  rewrite !Z.geb_leb.
  destruct (Z.ltb_spec col 0) as [Hc | Hc]; cbn [orb].
  { split; [eauto|]. split; [done|]. intros line Hl. split; [done|].
    intros c [Hc' _]%index_Some. lia. }
  destruct (Z.ltb_spec raw 0) as [Hr | Hr]; cbn [orb].
  { split; [eauto|]. split; [done|]. intros line [Hr' _]%index_Some. lia. }
  destruct (Z.leb_spec (Height b) raw) as [Hh | Hh].
  { split; [eauto|]. split; [done|]. intros line Hl%index_lt.
    unfold Height in Hh. lia. }
  destruct (index_in_range (lines b) raw) as [line Hline];
    [unfold Height in Hh; lia|].
  rewrite Hline, Z.geb_leb.
  destruct (Z.leb_spec (len (cells line)) col) as [Hlen | Hlen].
  { split; [eauto|]. split; [done|].
    intros line' [= <-]. split; [done|].
    intros c Hc'%index_lt. unfold len in Hlen. lia. }
  destruct (index_in_range (elems (cells line)) col) as [c Hcell];
    [unfold len in Hlen; lia|].
  rewrite Hcell. split; [eauto|]. split; [intros [?|[?|?]]; lia|].
  intros line' [= <-]. split; [lia|].
  intros c' Hc'. rewrite Hcell in Hc'. by injection Hc' as <-.
Qed.

(** ** Erasing the current line *)

Lemma Height_withLines (ls : list Line) (b : Buffer) :
  Height (withLines ls b) = Z.of_nat (length ls).
Proof. reflexivity. Qed.

Lemma RawLine_same_height (ls : list Line) (b : Buffer) :
  length ls = length (lines b) -> RawLine (withLines ls b) = RawLine b.
Proof.
  intros Hlen. unfold RawLine, convertViewLineToRawLine, Height. cbn.
  by rewrite Hlen.
Qed.

Lemma modifyLine_Done (p : Z) (f : Line -> Line) (b b' : Buffer) :
  modifyLine p f b = Done tt b' ->
  exists line,
    index (lines b) p = Some line /\
    b' = withLines (<[Z.to_nat p := f line]> (lines b)) b.
Proof.
  unfold modifyLine. destruct (index (lines b) p) as [line|]; [|done].
  intros [= <-]. eauto.
Qed.

Lemma index_insert_eq {A} (l : list A) (i : Z) (x y : A) :
  index l i = Some x -> index (<[Z.to_nat i := y]> l) i = Some y.
Proof.
  intros [Hi Hx]%index_Some. apply index_Some. split; [done|].
  apply list_lookup_insert_eq. by eapply lookup_lt_Some.
Qed.


(** ** Clear *)

Lemma appendNewLines_lines (n : nat) (b : Buffer) :
  appendNewLines n b = withLines (lines b ++ replicate n newLine) b.
Proof.
  revert b. induction n as [|n IH]; intros b; cbn [appendNewLines replicate].
  - rewrite app_nil_r. by destruct b.
  - rewrite IH. unfold appendLine. cbn [lines withLines].
    by rewrite <- app_assoc.
Qed.


(** ** The visible lines *)

Lemma visibleLoop_take (n : nat) (i : nat) (ls acc : list Line) :
  (i + n <= length ls)%nat ->
  visibleLoop n (Z.of_nat i) ls acc = acc ++ take n (drop i ls).
Proof.
  revert i acc. induction n as [|n IH]; intros i acc Hin; cbn [visibleLoop take].
  - by rewrite take_0, app_nil_r.
  - destruct (lookup_lt_is_Some_2 ls i) as [l Hl]; [lia|].
    replace (index ls (Z.of_nat i)) with (Some l)
      by (symmetry; apply index_Some; rewrite Nat2Z.id; split; [lia | done]).
    replace ((Z.of_nat i >=? 0) && (Z.of_nat i <? Z.of_nat (length ls))) with true
      by (symmetry; apply andb_true_iff; split; [apply Z.geb_le | apply Z.ltb_lt]; lia).
    replace (Z.of_nat i + 1) with (Z.of_nat (S i)) by lia.
    rewrite IH by lia.
    rewrite (drop_S ls l i Hl). cbn [take]. by rewrite <- app_assoc.
Qed.

Lemma GetVisibleLines_drop (b : Buffer) :
  0 <= viewHeight b <= Height b ->
  GetVisibleLines b = drop (Z.to_nat (Height b - viewHeight b)) (lines b).
Proof.
  intros Hh. unfold GetVisibleLines, ViewHeight.
  replace (Height b - viewHeight b) with (Z.of_nat (Z.to_nat (Height b - viewHeight b))) at 2
    by lia.
  unfold Height in *. rewrite visibleLoop_take by lia.
  rewrite take_ge; [done|]. rewrite length_drop. lia.
Qed.

(** C5, as the code has it. When the scrollback is taller than the view,
    [GetVisibleLines] returns the last [viewHeight] lines of the scrollback:
    exactly [viewHeight] lines, the last of which is [lines[H-1]] when the
    view has a row at all. *)
Theorem GetVisibleLines_bottom (b : Buffer) :
  0 <= viewHeight b ->
  viewHeight b < Height b ->
  GetVisibleLines b = drop (Z.to_nat (Height b - viewHeight b)) (lines b) /\
  Z.of_nat (length (GetVisibleLines b)) = viewHeight b /\
  (1 <= viewHeight b -> last (GetVisibleLines b) = index (lines b) (Height b - 1)).
Proof.
  intros H0 Hlt. rewrite GetVisibleLines_drop by lia.
  split; [done|]. unfold Height in *. split.
  - rewrite length_drop. lia.
  - intros H1. rewrite last_lookup, lookup_drop, length_drop.
    unfold index. destruct (Z.ltb_spec (Z.of_nat (length (lines b)) - 1) 0); [lia|].
    f_equal. lia.
Qed.

(** ** The loops of [Write] *)

Lemma withLines_id (b : Buffer) : withLines (lines b) b = b.
Proof. by destruct b. Qed.

(** With the cursor's row outside the view, the condition of the loop of
    [ensureLinesExistToRawHeight] holds however many lines are appended. *)
Lemma ensureLoop_never_exits (fuel : nat) (b : Buffer) :
  viewHeight b <= cursorY b -> ensureLoop fuel b = None.
Proof.
  revert b. induction fuel as [|fuel IH]; intros b Hout; [done|].
  cbn [ensureLoop].
  pose proof (RawLine_max b) as Hraw.
  destruct (Z.geb_spec (RawLine b) (Height b)) as [_ | Hlt]; [|lia].
  by apply IH.
Qed.

(** With the cursor's row inside the view, the loop exits after appending
    the lines that are missing up to that row. *)
Lemma ensureLoop_exits (fuel : nat) (b : Buffer) :
  0 <= cursorY b < viewHeight b ->
  (Z.to_nat (cursorY b + 1 - Height b) < fuel)%nat ->
  ensureLoop fuel b =
  Some (withLines (lines b ++ replicate (Z.to_nat (cursorY b + 1 - Height b)) newLine) b).
Proof.
  revert b. induction fuel as [|fuel IH]; intros b Hin Hfuel; [lia|].
  cbn [ensureLoop].
  pose proof (RawLine_max b) as Hraw.
  destruct (Z.geb_spec (RawLine b) (Height b)) as [Hge | Hlt].
  - assert (Height (appendLine newLine b) = Height b + 1) as Hh.
    { unfold Height, appendLine. cbn. rewrite length_app. cbn. lia. }
    rewrite IH; [| done | rewrite Hh; cbn [cursorY appendLine withLines]; lia].
    rewrite Hh. cbn [cursorY appendLine withLines lines].
    replace (Z.to_nat (cursorY b + 1 - Height b))
      with (S (Z.to_nat (cursorY b + 1 - (Height b + 1)))) by lia.
    cbn [replicate]. by rewrite <- app_assoc.
  - replace (Z.to_nat (cursorY b + 1 - Height b)) with 0%nat by lia.
    cbn [replicate]. by rewrite app_nil_r, withLines_id.
Qed.

Lemma ensureLinesExistToRawHeight_Hang (b : Buffer) :
  viewHeight b <= cursorY b -> ensureLinesExistToRawHeight b = Hang.
Proof.
  intros Hout. unfold ensureLinesExistToRawHeight.
  by rewrite ensureLoop_never_exits.
Qed.

Lemma ensureLinesExistToRawHeight_Done (b : Buffer) :
  0 <= cursorY b < viewHeight b ->
  ensureLinesExistToRawHeight b =
  Done tt (withLines (lines b ++ replicate (Z.to_nat (cursorY b + 1 - Height b)) newLine) b).
Proof.
  intros Hin. unfold ensureLinesExistToRawHeight.
  rewrite ensureLoop_exits; [done | done |].
  unfold Height. lia.
Qed.

Lemma ensureLinesExistToRawHeight_present (b : Buffer) :
  RawLine b < Height b -> ensureLinesExistToRawHeight b = Done tt b.
Proof.
  intros Hlt. unfold ensureLinesExistToRawHeight.
  replace (Z.to_nat (cursorY b) + 2)%nat with (S (Z.to_nat (cursorY b) + 1)) by lia.
  cbn [ensureLoop].
  destruct (Z.geb_spec (RawLine b) (Height b)); [lia | done].
Qed.

Lemma elems_appendCell (cs : slice Cell) (x : Cell) :
  elems (appendCell cs x) = elems cs ++ [x].
Proof. reflexivity. Qed.

(** The inner loop of [Write] appends the cells that are missing up to the
    column, and no more. *)
Lemma extendLoop_elems (n : nat) (col : Z) (cs : slice Cell) :
  (Z.to_nat (col + 1 - len cs) <= n)%nat ->
  elems (extendLoop n col cs) =
  elems cs ++ replicate (Z.to_nat (col + 1 - len cs)) newCell.
Proof.
  revert cs. induction n as [|n IH]; intros cs Hn; cbn [extendLoop].
  - replace (Z.to_nat (col + 1 - len cs)) with 0%nat by lia.
    by rewrite app_nil_r.
  - destruct (Z.geb_spec col (len cs)) as [Hge | Hlt].
    + assert (len (appendCell cs newCell) = len cs + 1) as Hlen.
      { unfold len. rewrite elems_appendCell, length_app. cbn. lia. }
      rewrite IH by lia. rewrite Hlen, elems_appendCell.
      replace (Z.to_nat (col + 1 - len cs))
        with (S (Z.to_nat (col + 1 - (len cs + 1)))) by lia.
      cbn [replicate]. by rewrite <- app_assoc.
    + replace (Z.to_nat (col + 1 - len cs)) with 0%nat by lia.
      by rewrite app_nil_r.
Qed.

(** A plain rune is stored in the current line, at the cursor's column,
    after the blank cells that are missing up to that column, and the cursor
    is advanced. *)
Lemma putRune_current_line (r : rune) (b : Buffer) (line : Line) :
  index (lines b) (RawLine b) = Some line ->
  0 <= cursorX b ->
  exists line',
    putRune r b =
    incrementCursorPosition
      (withLines (<[Z.to_nat (RawLine b) := line']> (lines b)) b) /\
    wrapped line' = wrapped line /\
    elems (cells line') =
    <[Z.to_nat (cursorX b) := mkCell r (cursorAttr b)]>
      (elems (cells line) ++
       replicate (Z.to_nat (cursorX b + 1 - len (cells line))) newCell).
Proof.
  intros Hline Hx. unfold putRune, CursorColumn. rewrite Hline.
  set (cs := extendLoop _ _ _).
  assert (elems cs = elems (cells line) ++
            replicate (Z.to_nat (cursorX b + 1 - len (cells line))) newCell) as Hcs
    by (unfold cs; by rewrite extendLoop_elems).
  assert (cursorX b < len cs) as Hlen.
  { unfold len. rewrite Hcs, length_app, length_replicate. unfold len. lia. }
  destruct (index_in_range (elems cs) (cursorX b)) as [cell Hcell];
    [unfold len in Hlen; lia|].
  rewrite Hcell. eexists. split; [reflexivity|]. split; [done|].
  cbn [cells setCells elems]. by rewrite Hcs.
Qed.

Lemma Write_app (xs ys : list rune) (b : Buffer) :
  Write (xs ++ ys) b = andThen (Write xs) (Write ys) b.
Proof.
  revert b. induction xs as [|x xs IH]; intros b; [done|].
  cbn [Write app]. unfold andThen, bind in *.
  destruct (writeRune x b); [apply IH | done | done].
Qed.

(** ** Writing a full row, then a line feed *)

Lemma writeRune_plain (r : rune) (b : Buffer) :
  plain r -> writeRune r b = andThen ensureLinesExistToRawHeight (putRune r) b.
Proof.
  intros [H10 H13]. unfold writeRune.
  destruct (Z.eqb_spec r 10); [done|]. by destruct (Z.eqb_spec r 13).
Qed.

(** Plain runes written on the first row of a view of two rows or more, up
    to the last column: they are stored after the cells [pre] the row has,
    and the last of them wraps, which appends a wrapped line and moves the
    cursor to its first column. *)
Lemma Write_first_row (runes : list rune) (b : Buffer) (pre : list Cell) :
  Forall plain runes ->
  runes <> [] ->
  1 <= viewWidth b < 65536 ->
  2 <= viewHeight b < 65536 ->
  cursorY b = 0 ->
  cursorX b = Z.of_nat (length pre) ->
  cursorX b + Z.of_nat (length runes) = viewWidth b ->
  (lines b = [] /\ pre = []) \/
  (exists l, lines b = [l] /\ elems (cells l) = pre /\ wrapped l = false) ->
  exists b' l0,
    Write runes b = Done tt b' /\
    lines b' = [l0; setWrapped true newLine] /\
    elems (cells l0) = pre ++ map (fun r => mkCell r (cursorAttr b)) runes /\
    wrapped l0 = false /\
    cursorX b' = 0 /\ cursorY b' = 1 /\
    viewWidth b' = viewWidth b /\ viewHeight b' = viewHeight b.
Proof.
  revert b pre. induction runes as [|r rest IH];
    intros b pre Hplain Hne Hw Hh Hy Hx Hlen Hlines; [done|].
  apply Forall_cons in Hplain as [Hr Hrest].
  cbn [Write]. unfold andThen at 1, bind. rewrite writeRune_plain by done.
  unfold andThen at 1, bind. rewrite ensureLinesExistToRawHeight_Done by lia.
  set (b1 := withLines _ b).
  assert (exists l1, lines b1 = [l1] /\ elems (cells l1) = pre /\ wrapped l1 = false)
    as (l1 & Hl1 & Hpre & Hwrapped).
  { unfold b1, Height. rewrite Hy. cbn [lines withLines].
    destruct Hlines as [[-> ->] | (l & -> & Hl & Hwl)]; cbn; eauto. }
  assert (RawLine b1 = 0) as Hraw.
  { rewrite RawLine_max. unfold Height. rewrite Hl1. cbn. lia. }
  destruct (putRune_current_line r b1 l1) as (line' & -> & Hwrapped' & Hcells).
  { rewrite Hraw, Hl1. done. }
  { cbn. lia. }
  assert (elems (cells line') = pre ++ [mkCell r (cursorAttr b)]) as Hline'.
  { rewrite Hcells. unfold len. rewrite Hpre.
    change (cursorX b1) with (cursorX b). rewrite Hx.
    replace (Z.to_nat (Z.of_nat (length pre) + 1 - Z.of_nat (length pre))) with 1%nat by lia.
    rewrite Nat2Z.id, insert_app_r_alt, Nat.sub_diag by lia. done. }
  rewrite Hraw, Hl1. change (<[Z.to_nat 0 := line']> [l1]) with [line'].
  unfold incrementCursorPosition, CursorColumn, Width, ViewHeight, Height, u16.
  cbn [cursorX cursorY viewWidth viewHeight lines withLines withCursorX b1 length
       appendLine].
  cbn [length] in Hlen.
  rewrite (Z.mod_small (cursorX b + 1)) by lia.
  rewrite (Z.mod_small (viewHeight b - 1)) by lia.
  destruct (Z.ltb_spec (cursorX b + 1) (viewWidth b)) as [Hroom | Hfull].
  - destruct (IH (withCursorX (cursorX b + 1) (withLines [line'] b))
                (pre ++ [mkCell r (cursorAttr b)]))
      as (b' & l0 & HW & Hl0 & Hcells0 & Hrest'); cbn; try lia; try done.
    { intros ->. cbn in Hlen. lia. }
    { rewrite length_app. cbn. lia. }
    { right. exists line'. rewrite Hwrapped'. done. }
    unfold withCursorX, withLines in *. cbn in *.
    rewrite HW. exists b', l0. split; [done|]. split; [done|].
    split; [by rewrite Hcells0, <- app_assoc | exact Hrest'].
  - assert (rest = []) as -> by (destruct rest; [done | cbn in Hlen; lia]).
    rewrite Hy.
    destruct (Z.eqb_spec 0 (viewHeight b - 1)) as [|_]; [lia|].
    change (Z.of_nat 1) with 1.
    destruct (Z.ltb_spec 1 (viewHeight b)) as [_|]; [|lia].
    cbn [Write ret]. eexists _, line'. split; [reflexivity|].
    rewrite Hwrapped', Hwrapped. done.
Qed.

(** C4. From a new buffer of width [w >= 1] and height [h >= 2], writing [w]
    plain runes leaves two lines: the first holds the runes, the second is
    empty and marked wrapped, and the cursor is on its first column. A line
    feed written next clears the mark and appends nothing: the cursor stays
    on that row, and the scrollback has exactly two lines. *)
Theorem full_row_then_line_feed (w h : Z) (attr : CellAttributes) (runes : list rune) :
  1 <= w < 65536 ->
  2 <= h < 65536 ->
  Z.of_nat (length runes) = w ->
  Forall plain runes ->
  exists b1 b2 l0,
    Write runes (NewBuffer w h attr) = Done tt b1 /\
    lines b1 = [l0; setWrapped true newLine] /\
    elems (cells l0) = map (fun r => mkCell r attr) runes /\
    wrapped l0 = false /\
    cursorX b1 = 0 /\ cursorY b1 = 1 /\
    Write [10] b1 = Done tt b2 /\
    Write (runes ++ [10]) (NewBuffer w h attr) = Done tt b2 /\
    lines b2 = [l0; newLine] /\
    Height b2 = 2 /\
    cursorX b2 = 0 /\ cursorY b2 = 1.
Proof.
  intros Hw Hh Hlen Hplain.
  destruct (Write_first_row runes (NewBuffer w h attr) [])
    as (b1 & l0 & HW & Hlines & Hcells & Hwrapped & Hx & Hy & Hvw & Hvh);
    cbn; try lia; try done.
  { intros ->. cbn in Hlen. lia. }
  { by left. }
  cbn in Hvw, Hvh, Hcells.
  assert (RawLine b1 = 1) as Hraw.
  { rewrite RawLine_max. unfold Height. rewrite Hlines, Hy, Hvh. cbn. lia. }
  assert (Write [10] b1 =
          Done tt (withLines [l0; newLine] b1)) as HLF.
  { cbn [Write]. unfold andThen, bind, writeRune. cbn [Z.eqb Pos.eqb].
    unfold andThen, bind.
    rewrite ensureLinesExistToRawHeight_present
      by (rewrite Hraw; unfold Height; rewrite Hlines; cbn; lia).
    assert (index (lines b1) 1 = Some (setWrapped true newLine)) as Hidx
      by (by rewrite Hlines).
    unfold NewLine, modifyLine. rewrite Hx, Hraw, Hidx. cbn [Z.eqb wrapped setWrapped].
    by rewrite Hlines. }
  exists b1, (withLines [l0; newLine] b1), l0.
  repeat split; try done.
  rewrite Write_app. unfold andThen, bind. by rewrite HW.
Qed.

(** ** Calls that do not return *)

(** C1. The claim fails on the code. [NewLine] on a new buffer indexes the
    empty [lines] and panics; after a carriage return has been written on a
    new buffer (one line, no cell), [EraseDisplayToCursor] slices the cells
    from 1 and panics, and with the cursor moved to column 3
    [EraseDisplayAfterCursor] slices them up to 3, beyond their capacity, and
    panics. *)
Theorem public_mutators_panic (attr : CellAttributes) :
  NewLine (NewBuffer 80 24 attr) = Panic IndexOutOfRange /\
  performAll [CallWrite [13]; CallEraseDisplayToCursor] (NewBuffer 80 24 attr)
  = Panic SliceBoundsOutOfRange /\
  performAll [CallWrite [13]; CallSetPosition 3 0; CallEraseDisplayAfterCursor]
    (NewBuffer 80 24 attr)
  = Panic SliceBoundsOutOfRange.
Proof. repeat split. Qed.

(** [NewLine] panics on every new buffer, whatever the view. *)
Lemma NewLine_new_buffer (w h : Z) (attr : CellAttributes) :
  NewLine (NewBuffer w h attr) = Panic IndexOutOfRange.
Proof.
  unfold NewLine. cbn [cursorX NewBuffer Z.eqb lines].
  unfold index. by destruct (_ <? 0).
Qed.

Lemma reachable_performAll (cs : list call) (b b' : Buffer) :
  reachable b -> Forall wellTyped cs -> performAll cs b = Done tt b' ->
  reachable b'.
Proof.
  revert b. induction cs as [|c cs IH]; intros b Hb Hcs Hrun.
  - by injection Hrun as <-.
  - apply Forall_cons in Hcs as [Hc Hcs].
    cbn [performAll] in Hrun. unfold andThen, bind in Hrun.
    destruct (perform c b) as [[] b1| |] eqn:Hstep; [|done|done].
    apply (IH b1); [|done|done]. by apply reachable_call with b c.
Qed.

(** C2. The claim fails on the code. On a view of one row, two runes
    written on a buffer of width 2 wrap: the line appended is marked wrapped
    and the cursor is on its first column. [CarriageReturn] then decrements
    the row 0, which wraps to 65535: the buffer is reachable and its cursor
    row is not a row of the view. *)
Theorem CarriageReturn_leaves_view (attr : CellAttributes) :
  exists b,
    performAll [CallWrite [97; 98]; CallCarriageReturn] (NewBuffer 2 1 attr)
    = Done tt b /\
    reachable b /\
    cursorY b = 65535 /\ viewHeight b = 1 /\ viewWidth b = 2.
Proof.
  eexists. split; [cbv; reflexivity|]. split; [|done].
  apply (reachable_performAll [CallWrite [97; 98]; CallCarriageReturn]
           (NewBuffer 2 1 attr)).
  - apply reachable_new; unfold is_u16; lia.
  - by repeat constructor.
  - cbv; reflexivity.
Qed.

(** With the cursor's row outside the view, [Write] never returns. *)
Lemma Write_outside_view (r : rune) (rest : list rune) (b : Buffer) :
  viewHeight b <= cursorY b -> Write (r :: rest) b = Hang.
Proof.
  intros Hout. cbn [Write]. unfold andThen, bind, writeRune, andThen, bind.
  by rewrite ensureLinesExistToRawHeight_Hang.
Qed.


(** On the buffer of [CarriageReturn_leaves_view], a further [Write] never
    returns. *)
Lemma Write_after_CarriageReturn (attr : CellAttributes) (b : Buffer) :
  performAll [CallWrite [97; 98]; CallCarriageReturn] (NewBuffer 2 1 attr) = Done tt b ->
  Write [99] b = Hang.
Proof.
  intros Hrun. apply Write_outside_view.
  cbv in Hrun. injection Hrun as <-. cbn. lia.
Qed.

(** ** The cursor and the view *)

Ltac case_compare :=
  repeat match goal with
    | |- context [Z.ltb ?x ?y] => destruct (Z.ltb_spec x y)
    | |- context [Z.geb ?x ?y] => destruct (Z.geb_spec x y)
    | |- context [Z.eqb ?x ?y] => destruct (Z.eqb_spec x y)
    end.

Lemma NewBuffer_ResizeView (w h : Z) (attr : CellAttributes) :
  ResizeView w h (mkBuffer [] 0 0 0 0 attr []) = Done tt (NewBuffer w h attr).
Proof. reflexivity. Qed.

Lemma u16_small (z : Z) : 0 <= z < 65536 -> u16 z = z.
Proof. apply Z.mod_small. Qed.

Lemma u16_range (z : Z) : is_u16 (u16 z).
Proof. apply Z.mod_pos_bound. lia. Qed.

Lemma sameCursor_inView (b b' : Buffer) : sameCursor b b' -> inView b -> inView b'.
Proof. unfold sameCursor, inView. intros (-> & -> & -> & ->). done. Qed.

Lemma sameCursor_refl (b : Buffer) : sameCursor b b.
Proof. by unfold sameCursor. Qed.

Lemma sameCursor_trans (b1 b2 b3 : Buffer) :
  sameCursor b1 b2 -> sameCursor b2 b3 -> sameCursor b1 b3.
Proof. unfold sameCursor. intros (? & ? & ? & ?) (? & ? & ? & ?). repeat split; congruence. Qed.

Lemma sameCursor_withLines (ls : list Line) (b : Buffer) : sameCursor b (withLines ls b).
Proof. by unfold sameCursor. Qed.

Lemma modifyLine_sameCursor (p : Z) (f : Line -> Line) (b b' : Buffer) :
  modifyLine p f b = Done tt b' -> sameCursor b b' /\ Height b' = Height b.
Proof.
  intros (line & _ & ->)%modifyLine_Done. split; [apply sameCursor_withLines|].
  unfold Height. cbn. by rewrite length_insert.
Qed.

(** A line that is in the scrollback can be written through its pointer. *)
Lemma modifyLine_returns (p : Z) (f : Line -> Line) (b : Buffer) :
  0 <= p < Height b -> exists b', modifyLine p f b = Done tt b'.
Proof.
  intros Hp. unfold modifyLine.
  destruct (index_in_range (lines b) p) as [line ->]; [done | eauto].
Qed.

Lemma ensureLoop_Some (fuel : nat) (b b' : Buffer) :
  ensureLoop fuel b = Some b' -> sameCursor b b' /\ RawLine b' < Height b'.
Proof.
  revert b. induction fuel as [|fuel IH]; intros b; [done|].
  cbn [ensureLoop]. destruct (Z.geb_spec (RawLine b) (Height b)) as [Hge | Hlt].
  - intros [Hsame Hraw]%IH. split; [|done].
    eapply sameCursor_trans; [|exact Hsame]. apply sameCursor_withLines.
  - intros [= <-]. split; [apply sameCursor_refl | done].
Qed.

Lemma ensureLinesExistToRawHeight_sameCursor (b b' : Buffer) :
  ensureLinesExistToRawHeight b = Done tt b' ->
  sameCursor b b' /\ RawLine b' < Height b'.
Proof.
  unfold ensureLinesExistToRawHeight.
  destruct (ensureLoop _ b) as [b1|] eqn:Hloop; [|done].
  intros [= <-]. by apply ensureLoop_Some in Hloop.
Qed.

Lemma RawLine_nonneg (b : Buffer) : 0 <= cursorY b -> 0 <= RawLine b.
Proof. rewrite RawLine_max. lia. Qed.

(** [SetPosition] with [uint16] arguments puts the cursor inside a view that
    has a column and a row. *)
Lemma SetPosition_inView (col line : Z) (b b' : Buffer) :
  is_u16 col -> is_u16 line ->
  0 < viewWidth b < 65536 -> 0 < viewHeight b < 65536 ->
  SetPosition col line b = Done tt b' -> inView b'.
Proof.
  unfold is_u16, SetPosition, ViewWidth, ViewHeight, inView.
  intros Hc Hl Hw Hh [= <-]. cbn.
  rewrite !u16_small by lia. case_compare; lia.
Qed.

Lemma MovePosition_inView (x y : Z) (b b' : Buffer) :
  0 < viewWidth b < 65536 -> 0 < viewHeight b < 65536 ->
  MovePosition x y b = Done tt b' -> inView b'.
Proof.
  intros Hw Hh. unfold MovePosition.
  apply SetPosition_inView; try done; apply u16_range.
Qed.

Lemma Clear_inView (b b' : Buffer) :
  0 < viewWidth b < 65536 -> 0 < viewHeight b < 65536 ->
  Clear b = Done tt b' -> inView b'.
Proof.
  intros Hw Hh. unfold Clear. rewrite appendNewLines_lines.
  apply SetPosition_inView; unfold is_u16; cbn; lia.
Qed.

Lemma newLineAdvance_inView (b : Buffer) : inView b -> inView (newLineAdvance b).
Proof.
  unfold inView, newLineAdvance. intros (Hx & Hy & Hw & Hh).
  rewrite (u16_small (viewHeight b - 1)) by lia.
  destruct (Z.eqb_spec (cursorY b) (viewHeight b - 1)); cbn; [lia|].
  rewrite u16_small by lia. lia.
Qed.

Lemma NewLine_inView (b b' : Buffer) :
  inView b -> NewLine b = Done tt b' -> inView b'.
Proof.
  intros Hin. unfold NewLine.
  destruct (cursorX b =? 0).
  - destruct (index (lines b) (RawLine b)) as [line|]; [|done].
    destruct (wrapped line).
    + intros [Hsame _]%modifyLine_sameCursor. by eapply sameCursor_inView.
    + intros [= <-]. by apply newLineAdvance_inView.
  - intros [= <-]. by apply newLineAdvance_inView.
Qed.

Lemma incrementCursorPosition_inView (b b' : Buffer) :
  inView b -> incrementCursorPosition b = Done tt b' -> inView b'.
Proof.
  intros Hin. pose proof Hin as (Hx & Hy & Hw & Hh).
  unfold incrementCursorPosition, CursorColumn, Width, ViewHeight.
  rewrite !(u16_small (cursorX b + 1)), (u16_small (viewHeight b - 1)) by lia.
  destruct (Z.ltb_spec (cursorX b + 1) (viewWidth b)).
  { intros [= <-]. unfold inView. cbn. lia. }
  destruct (Z.eqb_spec (cursorY b) (viewHeight b - 1)).
  { intros [= <-]. unfold inView. cbn. lia. }
  destruct (Height (withCursorX 0 b) <? viewHeight (withCursorX 0 b)).
  { intros [= <-]. unfold inView. cbn. rewrite u16_small by lia. lia. }
  intros [Hsame _]%modifyLine_sameCursor.
  eapply sameCursor_inView; [exact Hsame|]. unfold inView. cbn. lia.
Qed.

(** In a view the cursor is in, [incrementCursorPosition] returns when the
    cursor's line is in the scrollback. *)
Lemma incrementCursorPosition_returns (b : Buffer) :
  inView b -> RawLine b < Height b ->
  exists b', incrementCursorPosition b = Done tt b'.
Proof.
  intros (Hx & Hy & Hw & Hh) Hraw. unfold incrementCursorPosition.
  destruct (_ <? Width b); [eauto|].
  destruct (_ =? _); [eauto|].
  destruct (_ <? _); [eauto|].
  apply modifyLine_returns.
  change (RawLine (withCursorX 0 b)) with (RawLine b).
  change (Height (withCursorX 0 b)) with (Height b).
  split; [apply RawLine_nonneg; lia | done].
Qed.

Lemma putRune_inView (r : rune) (b b' : Buffer) :
  inView b -> putRune r b = Done tt b' -> inView b'.
Proof.
  intros Hin. unfold putRune.
  destruct (index (lines b) (RawLine b)) as [line|]; [|done].
  destruct (index _ (CursorColumn b)) as [cell|]; [|done].
  apply incrementCursorPosition_inView.
  by eapply sameCursor_inView; [apply sameCursor_withLines|].
Qed.

Lemma putRune_returns (r : rune) (b : Buffer) :
  inView b -> RawLine b < Height b -> exists b', putRune r b = Done tt b'.
Proof.
  intros Hin Hraw. pose proof Hin as (Hx & Hy & _).
  destruct (index_in_range (lines b) (RawLine b)) as [line Hline].
  { split; [apply RawLine_nonneg; lia | done]. }
  destruct (putRune_current_line r b line Hline) as (line' & -> & _); [lia|].
  apply incrementCursorPosition_returns.
  - by eapply sameCursor_inView; [apply sameCursor_withLines|].
  - rewrite RawLine_same_height by apply length_insert.
    rewrite Height_withLines, length_insert. done.
Qed.

Lemma NewLine_returns (b : Buffer) :
  0 <= cursorY b -> RawLine b < Height b -> exists b', NewLine b = Done tt b'.
Proof.
  intros Hy Hraw. unfold NewLine.
  destruct (cursorX b =? 0); [|eauto].
  destruct (index_in_range (lines b) (RawLine b)) as [line Hline].
  { split; [by apply RawLine_nonneg | done]. }
  rewrite Hline. destruct (wrapped line); [|eauto].
  apply modifyLine_returns. split; [by apply RawLine_nonneg | done].
Qed.

(** [Write] of runes other than carriage return, with the cursor in the
    view: it returns, and the cursor is in the view afterwards. *)
Lemma Write_inView (runes : list rune) (b : Buffer) :
  Forall (fun r => r <> 13) runes -> inView b ->
  exists b', Write runes b = Done tt b' /\ inView b'.
Proof.
  revert b. induction runes as [|r rest IH]; intros b Hrunes Hin.
  { exists b. done. }
  apply Forall_cons in Hrunes as [Hr Hrest].
  pose proof Hin as (Hx & Hy & Hw & Hh).
  cbn [Write]. unfold andThen at 1, bind, writeRune, andThen, bind.
  rewrite ensureLinesExistToRawHeight_Done by lia.
  set (b1 := withLines _ b).
  assert (inView b1) as Hin1 by done.
  assert (RawLine b1 < Height b1) as Hraw1.
  { pose proof (ensureLinesExistToRawHeight_Done b ltac:(lia)) as Hdone.
    by apply ensureLinesExistToRawHeight_sameCursor in Hdone as [_ ?]. }
  destruct (Z.eqb_spec r 10) as [_ | _].
  - destruct (NewLine_returns b1) as [b2 Hb2]; [unfold b1; cbn; lia | done |].
    rewrite Hb2. apply IH; [done|]. by eapply NewLine_inView.
  - destruct (Z.eqb_spec r 13) as [-> | _]; [done|].
    destruct (putRune_returns r b1) as [b2 Hb2]; [done | done |].
    rewrite Hb2. apply IH; [done|]. by eapply putRune_inView.
Qed.

(** The erase operations leave the cursor and the view alone. *)
Lemma erase_sameCursor (c : call) (b b' : Buffer) :
  match c with
  | CallEraseLine | CallEraseLineToCursor | CallEraseLineAfterCursor
  | CallEraseDisplayAfterCursor | CallEraseDisplayToCursor => True
  | _ => False
  end ->
  perform c b = Done tt b' -> sameCursor b b'.
Proof.
  destruct c; try done; intros _; cbn [perform];
    unfold EraseLine, EraseLineToCursor, EraseLineAfterCursor,
      EraseDisplayAfterCursor, EraseDisplayToCursor;
    (destruct (getCurrentLine b) as [p|];
     [| by intros [= <-]; apply sameCursor_refl]).
  - by intros [? _]%modifyLine_sameCursor.
  - by intros [? _]%modifyLine_sameCursor.
  - by intros [? _]%modifyLine_sameCursor.
  - destruct (index (lines b) p) as [line|]; [|done].
    destruct (sliceTo _ _); [|done]. by intros [= <-].
  - destruct (index (lines b) p) as [line|]; [|done].
    destruct (sliceFrom _ _); [|done]. by intros [= <-].
Qed.

(** X2. A call other than [CarriageReturn], [ResizeView] and a [Write] of a
    carriage return, made with the cursor in the view, leaves the cursor in
    the view when it returns. *)
Lemma cursor_stays_in_view (c : call) (b b' : Buffer) :
  inView b -> wellTyped c -> keepsCursorInView c ->
  perform c b = Done tt b' -> inView b'.
Proof.
  intros Hin Htyped Hkeeps Hcall. pose proof Hin as (Hx & Hy & Hw & Hh).
  destruct c; cbn [wellTyped keepsCursorInView] in *; try done;
    try (by eapply sameCursor_inView; [eapply erase_sameCursor; [|exact Hcall]|]);
    cbn [perform] in Hcall.
  - destruct (Write_inView runes b Hkeeps Hin) as (b1 & Hb1 & Hin1).
    rewrite Hb1 in Hcall. by injection Hcall as <-.
  - by eapply NewLine_inView.
  - destruct Htyped. eapply SetPosition_inView; [..|exact Hcall]; try done; lia.
  - eapply MovePosition_inView; [..|exact Hcall]; lia.
  - eapply Clear_inView; [..|exact Hcall]; lia.
Qed.

(** X3. With the cursor in the view, every public mutator returns, except
    [NewLine] outside [Write], the two display erases, and a [Write] of a
    carriage return. *)
Lemma guarded_mutators_return (c : call) (b : Buffer) :
  inView b ->
  match c with
  | CallNewLine | CallEraseDisplayAfterCursor | CallEraseDisplayToCursor => False
  | CallWrite runes => Forall (fun r => r <> 13) runes
  | _ => True
  end ->
  exists b', perform c b = Done tt b'.
Proof.
  intros Hin Hc. pose proof Hin as (Hx & Hy & Hw & Hh).
  assert (forall p, getCurrentLine b = inl p -> 0 <= p < Height b) as Hptr.
  { unfold getCurrentLine. intros p.
    destruct (Z.ltb_spec (RawLine b) (Height b)); [|done].
    intros [= <-]. split; [apply RawLine_nonneg; lia | done]. }
  destruct c; cbn [perform] in *; try done.
  - destruct (Write_inView runes b Hc Hin) as (b' & Hb' & _). eauto.
  - unfold CarriageReturn. destruct (getCurrentLine b) as [p|] eqn:Hp; [|eauto].
    destruct (index_in_range (lines b) p) as [line ->]; [by apply Hptr|].
    destruct (_ && _); eauto.
  - unfold SetPosition. eauto.
  - unfold MovePosition, SetPosition. eauto.
  - unfold Clear, SetPosition. eauto.
  - unfold ResizeView. eauto.
  - unfold EraseLine. destruct (getCurrentLine b) as [p|] eqn:Hp; [|eauto].
    apply modifyLine_returns. by apply Hptr.
  - unfold EraseLineToCursor. destruct (getCurrentLine b) as [p|] eqn:Hp; [|eauto].
    apply modifyLine_returns. by apply Hptr.
  - unfold EraseLineAfterCursor. destruct (getCurrentLine b) as [p|] eqn:Hp; [|eauto].
    apply modifyLine_returns. by apply Hptr.
Qed.

(** ** What every mutator keeps *)

Lemma extends_refl (b : Buffer) : extends b b.
Proof. unfold extends. repeat split; first [done | lia]. Qed.

Lemma extends_trans (b1 b2 b3 : Buffer) :
  extends b1 b2 -> extends b2 b3 -> extends b1 b3.
Proof.
  unfold extends. intros (? & ? & ? & ? & ?) (? & ? & ? & ? & ?).
  repeat split; try congruence; lia.
Qed.

Lemma length_clearLoop (n : nat) (i : Z) (ls : list Line) :
  length (clearLoop n i ls) = length ls.
Proof.
  revert i ls. induction n as [|n IH]; intros i ls; cbn [clearLoop]; [done|].
  rewrite IH. destruct (_ <? _); [apply length_alter | done].
Qed.

Lemma modifyLine_extends (p : Z) (f : Line -> Line) (b b' : Buffer) :
  modifyLine p f b = Done tt b' -> extends b b'.
Proof.
  intros (line & _ & ->)%modifyLine_Done.
  unfold extends, Height. cbn. rewrite length_insert. repeat split; first [done | lia].
Qed.

Lemma ensureLoop_extends (fuel : nat) (b b' : Buffer) :
  ensureLoop fuel b = Some b' -> extends b b'.
Proof.
  revert b. induction fuel as [|fuel IH]; intros b; [done|].
  cbn [ensureLoop]. destruct (_ >=? _).
  - intros Hrec%IH. eapply extends_trans; [|exact Hrec].
    unfold extends, Height, appendLine. cbn. rewrite length_app. cbn.
    repeat split; first [done | lia].
  - intros [= <-]. apply extends_refl.
Qed.

Lemma ensureLinesExistToRawHeight_extends (b b' : Buffer) :
  ensureLinesExistToRawHeight b = Done tt b' -> extends b b'.
Proof.
  unfold ensureLinesExistToRawHeight.
  destruct (ensureLoop _ b) as [b1|] eqn:Hloop; [|done].
  intros [= <-]. by apply ensureLoop_extends in Hloop.
Qed.

Lemma NewLine_extends (b b' : Buffer) : NewLine b = Done tt b' -> extends b b'.
Proof.
  assert (extends b (newLineAdvance b)) as Hadv.
  { unfold newLineAdvance, extends, Height.
    destruct (_ =? _); cbn; rewrite ?length_app; cbn; repeat split; first [done | lia]. }
  unfold NewLine. destruct (_ =? 0); [|by intros [= <-]].
  destruct (index _ _) as [line|]; [|done].
  destruct (wrapped line); [apply modifyLine_extends | by intros [= <-]].
Qed.

Lemma CarriageReturn_extends (b b' : Buffer) :
  CarriageReturn b = Done tt b' -> extends b b'.
Proof.
  unfold CarriageReturn. destruct (getCurrentLine b) as [p|].
  - destruct (index _ _) as [line|]; [|done].
    destruct (_ && _); intros [= <-]; unfold extends; repeat split; first [done | lia].
  - intros [= <-]. unfold extends. repeat split; first [done | lia].
Qed.

Lemma incrementCursorPosition_extends (b b' : Buffer) :
  incrementCursorPosition b = Done tt b' -> extends b b'.
Proof.
  unfold incrementCursorPosition.
  destruct (_ <? Width b).
  { intros [= <-]. unfold extends. repeat split; first [done | lia]. }
  destruct (_ =? _).
  { intros [= <-]. unfold extends, Height. cbn. rewrite length_app. cbn.
    repeat split; first [done | lia]. }
  destruct (_ <? _).
  { intros [= <-]. unfold extends, Height. cbn. rewrite length_app. cbn.
    repeat split; first [done | lia]. }
  intros Hm%modifyLine_extends. eapply extends_trans; [|exact Hm].
  unfold extends. repeat split; first [done | lia].
Qed.

Lemma putRune_extends (r : rune) (b b' : Buffer) :
  putRune r b = Done tt b' -> extends b b'.
Proof.
  unfold putRune. destruct (index (lines b) _) as [line|]; [|done].
  destruct (index _ (CursorColumn b)) as [cell|]; [|done].
  intros Hinc%incrementCursorPosition_extends.
  eapply extends_trans; [|exact Hinc].
  unfold extends, Height. cbn. rewrite length_insert. repeat split; first [done | lia].
Qed.

Lemma Write_extends (runes : list rune) (b b' : Buffer) :
  Write runes b = Done tt b' -> extends b b'.
Proof.
  revert b. induction runes as [|r rest IH]; intros b.
  { intros [= <-]. apply extends_refl. }
  cbn [Write]. unfold andThen at 1, bind, writeRune, andThen, bind.
  destruct (ensureLinesExistToRawHeight b) as [[] b1| |] eqn:Hens; [|done|done].
  apply ensureLinesExistToRawHeight_extends in Hens.
  destruct (r =? 10).
  { destruct (NewLine b1) as [[] b2| |] eqn:Hstep; [|done|done].
    apply NewLine_extends in Hstep. intros Hrest%IH.
    eauto using extends_trans. }
  destruct (r =? 13).
  { destruct (CarriageReturn b1) as [[] b2| |] eqn:Hstep; [|done|done].
    apply CarriageReturn_extends in Hstep. intros Hrest%IH.
    eauto using extends_trans. }
  destruct (putRune r b1) as [[] b2| |] eqn:Hstep; [|done|done].
  apply putRune_extends in Hstep. intros Hrest%IH.
  eauto using extends_trans.
Qed.

Lemma SetPosition_extends (col line : Z) (b b' : Buffer) :
  SetPosition col line b = Done tt b' -> extends b b'.
Proof. intros [= <-]. unfold extends. repeat split; first [done | lia]. Qed.

Lemma Clear_extends (b b' : Buffer) : Clear b = Done tt b' -> extends b b'.
Proof.
  unfold Clear. rewrite appendNewLines_lines. intros Hset%SetPosition_extends.
  eapply extends_trans; [|exact Hset].
  unfold extends, Height. cbn. rewrite length_app. repeat split; first [done | lia].
Qed.

Lemma erase_extends (c : call) (b b' : Buffer) :
  match c with
  | CallEraseLine | CallEraseLineToCursor | CallEraseLineAfterCursor
  | CallEraseDisplayAfterCursor | CallEraseDisplayToCursor => True
  | _ => False
  end ->
  perform c b = Done tt b' -> extends b b' /\ Height b' = Height b.
Proof.
  destruct c; try done; intros _; cbn [perform];
    unfold EraseLine, EraseLineToCursor, EraseLineAfterCursor,
      EraseDisplayAfterCursor, EraseDisplayToCursor;
    (destruct (getCurrentLine b) as [p|];
     [| by intros [= <-]; split; [apply extends_refl|]]).
  - intros Hm. split; [by eapply modifyLine_extends|].
    by apply modifyLine_sameCursor in Hm as [_ ?].
  - intros Hm. split; [by eapply modifyLine_extends|].
    by apply modifyLine_sameCursor in Hm as [_ ?].
  - intros Hm. split; [by eapply modifyLine_extends|].
    by apply modifyLine_sameCursor in Hm as [_ ?].
  - destruct (index (lines b) p) as [line|]; [|done].
    destruct (sliceTo _ _); [|done]. intros [= <-].
    unfold extends, Height. cbn. rewrite length_clearLoop, length_insert.
    repeat split; first [done | lia].
  - destruct (index (lines b) p) as [line|]; [|done].
    destruct (sliceFrom _ _); [|done]. intros [= <-].
    unfold extends, Height. cbn. rewrite length_clearLoop, length_insert.
    repeat split; first [done | lia].
Qed.

(** X1. A public mutator that returns never shortens the scrollback and
    never touches the cursor attribute or the handlers; only [ResizeView]
    changes the size of the view, and it changes nothing else. The erase
    operations keep the number of lines. *)
Theorem mutators_keep_scrollback (c : call) (b b' : Buffer) :
  perform c b = Done tt b' ->
  Height b <= Height b' /\
  cursorAttr b' = cursorAttr b /\
  displayChangeHandlers b' = displayChangeHandlers b /\
  (keepsView c -> viewWidth b' = viewWidth b /\ viewHeight b' = viewHeight b) /\
  (forall w h, c = CallResizeView w h ->
     lines b' = lines b /\ cursorX b' = cursorX b /\ cursorY b' = cursorY b /\
     viewWidth b' = w /\ viewHeight b' = h) /\
  (match c with
   | CallEraseLine | CallEraseLineToCursor | CallEraseLineAfterCursor
   | CallEraseDisplayAfterCursor | CallEraseDisplayToCursor => Height b' = Height b
   | _ => True
   end).
Proof.
  intros Hcall.
  assert (keepsView c -> extends b b') as Hext.
  { intros Hc. destruct c; try done; cbn [perform] in Hcall.
    - by eapply Write_extends.
    - by eapply NewLine_extends.
    - by eapply CarriageReturn_extends.
    - by eapply SetPosition_extends.
    - by eapply SetPosition_extends.
    - by eapply Clear_extends.
    - by eapply (erase_extends CallEraseLine).
    - by eapply (erase_extends CallEraseLineToCursor).
    - by eapply (erase_extends CallEraseLineAfterCursor).
    - by eapply (erase_extends CallEraseDisplayAfterCursor).
    - by eapply (erase_extends CallEraseDisplayToCursor). }
  destruct c; cbn [keepsView] in Hext;
    try (destruct (Hext I) as (Hh & Hw & Hv & Ha & Hd);
         repeat split; try done;
         try (by eapply erase_extends; [|exact Hcall])).
  injection Hcall as <-. cbn. repeat split; try done; try lia.
  all: congruence.
Qed.

(** ** Appending the lines up to the cursor *)

(** X4. With a cursor row that is not negative, the loop of
    [ensureLinesExistToRawHeight] exits exactly when that row is a row of the
    view. It then has appended the blank lines missing up to the cursor's
    row and nothing else, the cursor's line is in the scrollback, and a
    second call changes nothing. Otherwise no number of iterations ends the
    loop. *)
Theorem ensureLinesExist_exits_iff (b : Buffer) :
  0 <= cursorY b ->
  ((exists fuel b', ensureLoop fuel b = Some b') <-> cursorY b < viewHeight b) /\
  (cursorY b < viewHeight b ->
   exists b',
     ensureLinesExistToRawHeight b = Done tt b' /\
     lines b' = lines b ++ replicate (Z.to_nat (cursorY b + 1 - Height b)) newLine /\
     sameCursor b b' /\
     0 <= RawLine b' < Height b' /\
     ensureLinesExistToRawHeight b' = Done tt b') /\
  (viewHeight b <= cursorY b -> ensureLinesExistToRawHeight b = Hang).
Proof.
  intros Hy. split; [|split].
  - split.
    + intros (fuel & b' & Hloop).
      destruct (Z.lt_ge_cases (cursorY b) (viewHeight b)) as [|Hout]; [done|].
      by rewrite ensureLoop_never_exits in Hloop.
    + intros Hin. exists (S (Z.to_nat (cursorY b + 1 - Height b))). eexists.
      apply ensureLoop_exits; lia.
  - intros Hin. eexists. split; [by apply ensureLinesExistToRawHeight_Done|].
    pose proof (ensureLinesExistToRawHeight_Done b ltac:(lia)) as Hdone.
    apply ensureLinesExistToRawHeight_sameCursor in Hdone as [Hsame Hraw].
    split; [done|]. split; [done|]. split.
    + split; [|done]. apply RawLine_nonneg. cbn. lia.
    + by apply ensureLinesExistToRawHeight_present.
  - apply ensureLinesExistToRawHeight_Hang.
Qed.

(** ** The fields of a reachable buffer *)











(** ** Line feed, carriage return and relative moves *)

(** X6. With a cursor row that is not negative, [NewLine] panics exactly
    when the cursor is on column 0 and its line is not in the scrollback; in
    every other state it returns. *)
Theorem NewLine_panics_iff (b : Buffer) :
  0 <= cursorY b ->
  (NewLine b = Panic IndexOutOfRange <-> cursorX b = 0 /\ Height b <= RawLine b) /\
  (cursorX b <> 0 \/ RawLine b < Height b -> exists b', NewLine b = Done tt b').
Proof.
  intros Hy. pose proof (RawLine_nonneg b Hy) as Hraw. unfold NewLine.
  destruct (Z.eqb_spec (cursorX b) 0) as [Hx | Hx].
  - destruct (Z.lt_ge_cases (RawLine b) (Height b)) as [Hlt | Hge].
    + destruct (index_in_range (lines b) (RawLine b)) as [line Hline]; [done|].
      rewrite Hline.
      destruct (wrapped line).
      * destruct (modifyLine_returns (RawLine b) (setWrapped false) b) as [b' Hb'];
          [done|].
        rewrite Hb'. split; [split; [done | lia] | eauto].
      * split; [split; [done | lia] | eauto].
    + replace (index (lines b) (RawLine b)) with (@None Line).
      * split; [done | lia].
      * symmetry. unfold index. destruct (_ <? 0); [done|].
        apply lookup_ge_None_2. unfold Height in Hge. lia.
  - split; [split; [done | lia] | eauto].
Qed.

(** X7. A line feed on the last row of a full view scrolls it: when the
    scrollback is at least as tall as the view and [NewLine] does not land
    on column 0 of a wrapped line, it appends one blank line, so the visible
    lines are the former ones without the first, and the new line; the
    cursor goes to column 0 of the same row. *)
Theorem NewLine_scrolls (b : Buffer) :
  inView b ->
  cursorY b = viewHeight b - 1 ->
  viewHeight b <= Height b ->
  (forall line, index (lines b) (RawLine b) = Some line ->
                cursorX b = 0 -> wrapped line = false) ->
  exists b',
    NewLine b = Done tt b' /\
    lines b' = lines b ++ [newLine] /\
    GetVisibleLines b' = drop 1 (GetVisibleLines b) ++ [newLine] /\
    cursorX b' = 0 /\ cursorY b' = cursorY b.
Proof.
  intros (Hx & Hy & Hw & Hh) Hlast Hfull Hflag.
  assert (RawLine b < Height b) as Hraw by (rewrite RawLine_max; lia).
  assert (NewLine b = Done tt (newLineAdvance b)) as ->.
  { unfold NewLine. destruct (Z.eqb_spec (cursorX b) 0) as [Hx0 | _]; [|done].
    destruct (index_in_range (lines b) (RawLine b)) as [line Hline].
    { split; [apply RawLine_nonneg; lia | done]. }
    rewrite Hline. by rewrite (Hflag line Hline Hx0). }
  unfold newLineAdvance. rewrite (u16_small (viewHeight b - 1)) by lia.
  destruct (Z.eqb_spec (cursorY b) (viewHeight b - 1)); [|done].
  eexists. split; [reflexivity|]. cbn. split; [done|]. split; [|done].
  rewrite !GetVisibleLines_drop; unfold Height in *; cbn;
    rewrite ?length_app; cbn; try lia.
  rewrite drop_drop, drop_app_le by lia. f_equal. f_equal. lia.
Qed.

(** X8. With a cursor row that is not negative, [CarriageReturn] returns and
    leaves the cursor on column 0; it changes no line and nothing of the
    view. The row changes only from column 0 of a wrapped line, where it is
    decremented as a [uint16]. When the cursor's line is not wrapped, or is
    not in the scrollback, a second carriage return changes nothing more. *)
Theorem CarriageReturn_column_zero (b : Buffer) :
  0 <= cursorY b ->
  exists b',
    CarriageReturn b = Done tt b' /\
    cursorX b' = 0 /\
    lines b' = lines b /\
    viewWidth b' = viewWidth b /\ viewHeight b' = viewHeight b /\
    cursorY b' =
      (if (cursorX b =? 0) && currentLineWrapped b then u16 (cursorY b - 1)
       else cursorY b) /\
    (currentLineWrapped b = false -> CarriageReturn b' = Done tt b').
Proof.
  intros Hy. pose proof (RawLine_nonneg b Hy) as Hraw.
  assert (forall line, index (lines b) (RawLine b) = Some line ->
            wrapped line = false ->
            CarriageReturn (withCursorX 0 b) = Done tt (withCursorX 0 b)) as Hagain.
  { intros line Hline Hwrapped. unfold CarriageReturn, getCurrentLine.
    change (RawLine (withCursorX 0 b)) with (RawLine b).
    change (Height (withCursorX 0 b)) with (Height b).
    destruct (_ <? _); [|done].
    cbn [lines withCursorX]. rewrite Hline, Hwrapped. by rewrite andb_false_r. }
  unfold CarriageReturn at 1, getCurrentLine, currentLineWrapped.
  destruct (Z.ltb_spec (RawLine b) (Height b)) as [Hlt | Hge].
  - destruct (index_in_range (lines b) (RawLine b)) as [line Hline]; [done|].
    rewrite Hline.
    destruct (Z.eqb_spec (cursorX b) 0) as [Hx | Hx]; cbn [andb].
    + destruct (wrapped line) eqn:Hwrapped.
      * eexists. split; [reflexivity|]. cbn. by repeat split.
      * eexists. split; [reflexivity|]. cbn. repeat split; try done.
        intros _. by apply Hagain with line.
    + eexists. split; [reflexivity|]. cbn. repeat split; try done.
      intros Hwrapped. by apply Hagain with line.
  - replace (index (lines b) (RawLine b)) with (@None Line).
    + rewrite andb_false_r. eexists. split; [reflexivity|]. cbn.
      repeat split; try done. intros _.
      unfold CarriageReturn, getCurrentLine.
      change (RawLine (withCursorX 0 b)) with (RawLine b).
      change (Height (withCursorX 0 b)) with (Height b).
      by destruct (Z.ltb_spec (RawLine b) (Height b)); [lia|].
    + symmetry. unfold index. destruct (_ <? 0); [done|].
      apply lookup_ge_None_2. unfold Height in Hge. lia.
Qed.

Lemma i16_small (z : Z) : is_i16 z -> i16 z = z.
Proof. unfold is_i16, i16. intros Hz. rewrite Z.mod_small; lia. Qed.

(** X9. [MovePosition] moves the cursor by [(x, y)] and keeps it between
    the first and the last column and row of the view, as long as the cursor
    coordinates and the sums fit [int16]; it changes no line. *)
Theorem MovePosition_clamps (x y : Z) (b : Buffer) :
  inView b ->
  is_i16 x -> is_i16 y ->
  cursorX b < 32768 -> cursorY b < 32768 ->
  cursorX b + x < 32768 -> cursorY b + y < 32768 ->
  exists b',
    MovePosition x y b = Done tt b' /\
    cursorX b' = Z.min (Z.max 0 (cursorX b + x)) (viewWidth b - 1) /\
    cursorY b' = Z.min (Z.max 0 (cursorY b + y)) (viewHeight b - 1) /\
    lines b' = lines b.
Proof.
  intros (Hx & Hy & Hw & Hh) Hix Hiy Hcx Hcy Hsx Hsy. unfold is_i16 in *.
  eexists. split; [reflexivity|]. unfold ViewWidth, ViewHeight. cbn.
  rewrite (i16_small (cursorX b)), (i16_small (cursorY b)) by (unfold is_i16; lia).
  rewrite (i16_small (cursorX b + x)), (i16_small (cursorY b + y))
    by (unfold is_i16; lia).
  rewrite (i16_small (- cursorX b)), (i16_small (- cursorY b)) by (unfold is_i16; lia).
  rewrite !(u16_small (viewWidth b - 1)), !(u16_small (viewHeight b - 1)) by lia.
  split; [|split; [|done]].
  - destruct (Z.ltb_spec (cursorX b + x) 0).
    + replace (cursorX b + - cursorX b) with 0 by lia.
      rewrite (i16_small 0), (u16_small 0) by (unfold is_i16; lia).
      destruct (Z.geb_spec 0 (viewWidth b)); lia.
    + rewrite (i16_small (cursorX b + x)), (u16_small (cursorX b + x))
        by (unfold is_i16; lia).
      destruct (Z.geb_spec (cursorX b + x) (viewWidth b)); lia.
  - destruct (Z.ltb_spec (cursorY b + y) 0).
    + replace (cursorY b + - cursorY b) with 0 by lia.
      rewrite (i16_small 0), (u16_small 0) by (unfold is_i16; lia).
      destruct (Z.geb_spec 0 (viewHeight b)); lia.
    + rewrite (i16_small (cursorY b + y)), (u16_small (cursorY b + y))
        by (unfold is_i16; lia).
      destruct (Z.geb_spec (cursorY b + y) (viewHeight b)); lia.
Qed.

(** ** What the view shows *)

Lemma visibleLoop_skip (k n : nat) (ls acc : list Line) :
  visibleLoop (k + n) (- Z.of_nat k) ls acc = visibleLoop n 0 ls acc.
Proof.
  induction k as [|k IH]; [done|].
  cbn [Nat.add visibleLoop].
  destruct (Z.geb_spec (- Z.of_nat (S k)) 0) as [|_]; [lia|]. cbn [andb].
  replace (- Z.of_nat (S k) + 1) with (- Z.of_nat k) by lia. exact IH.
Qed.

Lemma GetVisibleLines_all (b : Buffer) :
  Height b <= viewHeight b -> GetVisibleLines b = lines b.
Proof.
  intros Hh. unfold GetVisibleLines, ViewHeight, Height in *.
  replace (Z.to_nat (Z.of_nat (length (lines b)) -
                     (Z.of_nat (length (lines b)) - viewHeight b)))
    with (Z.to_nat (viewHeight b - Z.of_nat (length (lines b))) + length (lines b))%nat
    by lia.
  replace (Z.of_nat (length (lines b)) - viewHeight b)
    with (- Z.of_nat (Z.to_nat (viewHeight b - Z.of_nat (length (lines b))))) by lia.
  rewrite visibleLoop_skip. change 0 with (Z.of_nat 0).
  rewrite visibleLoop_take by lia. cbn [app]. by rewrite drop_0, firstn_all.
Qed.

(** X10. [GetVisibleLines] returns the last lines of the scrollback, as many
    as the view has rows, or all of them when the scrollback is not taller
    than the view: [min(Height, viewHeight)] lines. *)
Theorem GetVisibleLines_suffix (b : Buffer) :
  0 <= viewHeight b ->
  GetVisibleLines b = drop (Z.to_nat (Height b - viewHeight b)) (lines b) /\
  Z.of_nat (length (GetVisibleLines b)) = Z.min (Height b) (viewHeight b) /\
  (Height b <= viewHeight b -> GetVisibleLines b = lines b).
Proof.
  intros Hvh.
  destruct (Z.le_gt_cases (Height b) (viewHeight b)) as [Hle | Hgt].
  - rewrite GetVisibleLines_all by done.
    replace (Z.to_nat (Height b - viewHeight b)) with 0%nat by lia.
    rewrite drop_0. unfold Height in *. repeat split; lia.
  - rewrite GetVisibleLines_drop by lia. unfold Height in *.
    rewrite length_drop. repeat split; lia.
Qed.

Lemma GetCell_visible (b : Buffer) (col row : Z) :
  0 <= viewHeight b ->
  is_u16 row ->
  GetCell col row b =
  Done (match GetVisibleLines b !! Z.to_nat row with
        | Some line => index (elems (cells line)) col
        | None => None
        end) b.
Proof.
  intros Hvh Hrow. unfold is_u16 in Hrow.
  assert (GetVisibleLines b !! Z.to_nat row =
          index (lines b) (convertViewLineToRawLine b (u16 row))) as ->.
  { rewrite u16_small by done. rewrite convertViewLineToRawLine_max.
    destruct (Z.le_gt_cases (Height b) (viewHeight b)) as [Hle | Hgt].
    - rewrite GetVisibleLines_all by done.
      replace (Z.max 0 (Height b - viewHeight b)) with 0 by lia.
      rewrite Z.add_0_r. unfold index. by destruct (Z.ltb_spec row 0); [lia|].
    - rewrite GetVisibleLines_drop by lia. rewrite lookup_drop.
      unfold index.
      destruct (Z.ltb_spec (row + Z.max 0 (Height b - viewHeight b)) 0); [lia|].
      f_equal. lia. }
  unfold GetCell. set (raw := convertViewLineToRawLine b (u16 row)).
  rewrite !Z.geb_leb.
  destruct (Z.ltb_spec col 0) as [Hc | Hc]; cbn [orb].
  { destruct (index (lines b) raw); [|done].
    unfold index. by destruct (Z.ltb_spec col 0); [|lia]. }
  destruct (Z.ltb_spec raw 0) as [Hr | Hr]; cbn [orb].
  { unfold index at 1. by destruct (Z.ltb_spec raw 0); [|lia]. }
  destruct (Z.leb_spec (Height b) raw) as [Hh | Hh].
  { replace (index (lines b) raw) with (@None Line); [done|].
    symmetry. unfold index. destruct (_ <? 0); [done|].
    apply lookup_ge_None_2. unfold Height in Hh. lia. }
  destruct (index_in_range (lines b) raw) as [line ->];
    [unfold Height in Hh; lia|].
  rewrite Z.geb_leb.
  destruct (Z.leb_spec (len (cells line)) col) as [Hlen | Hlen].
  - replace (index (elems (cells line)) col) with (@None Cell); [done|].
    symmetry. unfold index. destruct (_ <? 0); [done|].
    apply lookup_ge_None_2. unfold len in Hlen. lia.
  - destruct (index_in_range (elems (cells line)) col) as [c ->];
      [unfold len in Hlen; lia | done].
Qed.

(** X11. [GetCell] reads the visible lines: for a row given as a [uint16],
    its result is the cell at the column in that row of [GetVisibleLines],
    and nil when the row or the column is not there. *)
Theorem GetCell_of_visible_line (b : Buffer) (col row : Z) :
  0 <= viewHeight b ->
  is_u16 row ->
  GetCell col row b =
  Done (match GetVisibleLines b !! Z.to_nat row with
        | Some line => index (elems (cells line)) col
        | None => None
        end) b.
Proof. apply GetCell_visible. Qed.

(** X12. After [Clear] the view is blank: the visible lines are
    [viewHeight] new lines, [GetCell] finds no cell in any row, and the
    cursor's raw line is the first of the new lines. *)
Theorem Clear_blank_screen (b : Buffer) :
  0 <= viewHeight b ->
  exists b',
    Clear b = Done tt b' /\
    GetVisibleLines b' = replicate (Z.to_nat (viewHeight b)) newLine /\
    (forall col row, is_u16 row -> GetCell col row b' = Done None b') /\
    (0 < viewHeight b < 65536 -> RawLine b' = Height b).
Proof.
  intros Hvh. unfold Clear. rewrite appendNewLines_lines. eexists.
  split; [reflexivity|].
  set (b' := withCursorY _ _).
  assert (lines b' = lines b ++ replicate (Z.to_nat (viewHeight b)) newLine) as Hlines
    by done.
  assert (viewHeight b' = viewHeight b) as Hvh' by done.
  assert (Height b' = Height b + viewHeight b) as Hheight.
  { unfold Height. rewrite Hlines, length_app, length_replicate. lia. }
  assert (0 <= Height b) as Hnonneg by (unfold Height; lia).
  assert (GetVisibleLines b' = replicate (Z.to_nat (viewHeight b)) newLine) as Hvisible.
  { rewrite GetVisibleLines_drop by lia. rewrite Hheight, Hvh', Hlines.
    replace (Z.to_nat (Height b + viewHeight b - viewHeight b))
      with (length (lines b)) by (unfold Height; lia).
    apply drop_app_length. }
  split; [done|]. split.
  - intros col row Hrow. rewrite GetCell_visible by (rewrite ?Hvh'; done).
    rewrite Hvisible.
    destruct (replicate _ _ !! _) as [line|] eqn:Hline; [|done].
    apply lookup_replicate in Hline as [-> _]. cbn.
    unfold index. by destruct (_ <? 0).
  - intros Hpos. rewrite RawLine_max, Hheight, Hvh'.
    unfold b', ViewHeight. cbn.
    destruct (Z.geb_spec 0 (viewHeight b)); lia.
Qed.

(** ** Writing and reading back *)

Lemma GetCell_present (b : Buffer) (col row : Z) (line : Line) (c : Cell) :
  index (lines b) (convertViewLineToRawLine b (u16 row)) = Some line ->
  index (elems (cells line)) col = Some c ->
  GetCell col row b = Done (Some c) b.
Proof.
  intros Hline Hcell. unfold GetCell. rewrite Hline.
  pose proof (index_lt _ _ _ Hline) as Hraw.
  pose proof (index_lt _ _ _ Hcell) as Hcol.
  rewrite !Z.geb_leb.
  destruct (Z.ltb_spec col 0); [lia|].
  destruct (Z.ltb_spec (convertViewLineToRawLine b (u16 row)) 0); [lia|].
  destruct (Z.leb_spec (Height b) (convertViewLineToRawLine b (u16 row)));
    [unfold Height in *; lia|].
  cbn [orb]. destruct (Z.leb_spec (len (cells line)) col); [unfold len in *; lia|].
  by rewrite Hcell.
Qed.

(** X13. A plain rune written with the cursor in the view and not on the
    last column is read back by [GetCell] at the cursor's former position,
    with the cursor's attribute; the cursor has moved one column to the
    right on the same row, and the scrollback reaches the cursor's row. *)
Theorem Write_then_GetCell (r : rune) (b : Buffer) :
  inView b ->
  plain r ->
  cursorX b + 1 < viewWidth b ->
  exists b',
    Write [r] b = Done tt b' /\
    GetCell (cursorX b) (cursorY b) b' = Done (Some (mkCell r (cursorAttr b))) b' /\
    cursorX b' = cursorX b + 1 /\ cursorY b' = cursorY b /\
    Height b' = Z.max (Height b) (cursorY b + 1).
Proof.
  intros (Hx & Hy & Hw & Hh) Hplain Hroom.
  cbn [Write]. unfold andThen at 1, bind. rewrite writeRune_plain by done.
  unfold andThen at 1, bind.
  pose proof (ensureLinesExistToRawHeight_Done b ltac:(lia)) as Hens.
  rewrite Hens. apply ensureLinesExistToRawHeight_sameCursor in Hens as [_ Hraw].
  set (b1 := withLines _ b) in *.
  assert (Height b1 = Z.max (Height b) (cursorY b + 1)) as Hheight.
  { unfold b1, Height. cbn. rewrite length_app, length_replicate. unfold Height. lia. }
  assert (0 <= RawLine b1) as Hraw0 by (apply RawLine_nonneg; cbn; lia).
  destruct (index_in_range (lines b1) (RawLine b1)) as [line Hline]; [done|].
  destruct (putRune_current_line r b1 line Hline) as (line' & -> & _ & Hcells);
    [cbn; lia|].
  unfold incrementCursorPosition, CursorColumn, Width.
  cbn [cursorX viewWidth withLines b1].
  rewrite !(u16_small (cursorX b + 1)) by lia.
  destruct (Z.ltb_spec (cursorX b + 1) (viewWidth b)); [|lia].
  cbn [ret]. eexists. split; [reflexivity|].
  split; [|cbn; split; [done|]; split; [done|]].
  - apply GetCell_present with line'.
    + rewrite u16_small by lia.
      change (convertViewLineToRawLine _ (cursorY b))
        with (RawLine (withLines (<[Z.to_nat (RawLine b1) := line']> (lines b1)) b1)).
      rewrite RawLine_same_height by apply length_insert.
      cbn [lines withCursorX withLines]. by apply index_insert_eq with line.
    + rewrite Hcells. cbn [cursorX cursorAttr withLines b1].
      apply index_Some. split; [lia|].
      apply list_lookup_insert_eq. rewrite length_app, length_replicate.
      unfold len. lia.
  - unfold Height. cbn. rewrite length_insert. exact Hheight.
Qed.

(** ** The erase loops *)

Lemma spare_eraseLoop (n : nat) (i : Z) (cs : slice Cell) :
  spare (eraseLoop n i cs) = spare cs.
Proof.
  revert i cs. induction n as [|n IH]; intros i cs; cbn [eraseLoop]; [done|].
  rewrite IH. by destruct (_ <? _).
Qed.

Lemma length_eraseLoop (n : nat) (i : Z) (cs : slice Cell) :
  length (elems (eraseLoop n i cs)) = length (elems cs).
Proof.
  revert i cs. induction n as [|n IH]; intros i cs; cbn [eraseLoop]; [done|].
  rewrite IH. destruct (_ <? _); [apply length_alter | done].
Qed.

(** [n] iterations from [i] erase the cells [i .. i+n-1] that the line has,
    and touch no other cell. *)
Lemma eraseLoop_lookup (n i j : nat) (cs : slice Cell) :
  elems (eraseLoop n (Z.of_nat i) cs) !! j =
  if decide (i <= j < i + n)%nat then erase <$> elems cs !! j else elems cs !! j.
Proof.
  revert i cs. induction n as [|n IH]; intros i cs; cbn [eraseLoop].
  { case_decide; [lia | done]. }
  replace (Z.of_nat i + 1) with (Z.of_nat (S i)) by lia. rewrite IH.
  assert (forall k,
            elems (if Z.of_nat i <? len cs
                   then Slice (alter erase (Z.to_nat (Z.of_nat i)) (elems cs)) (spare cs)
                   else cs) !! k =
            if decide (k = i) then erase <$> elems cs !! k else elems cs !! k) as Hstep.
  { intros k. rewrite Nat2Z.id. destruct (Z.ltb_spec (Z.of_nat i) (len cs)) as [Hlt | Hge].
    - cbn [elems]. case_decide as Hk.
      + subst k. apply list_lookup_alter_eq.
      + by apply list_lookup_alter_ne.
    - case_decide as Hk; [|done]. subst k.
      rewrite (lookup_ge_None_2 (elems cs) i); [done|]. unfold len in Hge. lia. }
  rewrite Hstep. repeat case_decide; try lia; done.
Qed.

Lemma clearLoop_lookup (n i j : nat) (ls : list Line) :
  clearLoop n (Z.of_nat i) ls !! j =
  if decide (i <= j < i + n)%nat then setCells emptySlice <$> ls !! j else ls !! j.
Proof.
  revert i ls. induction n as [|n IH]; intros i ls; cbn [clearLoop].
  { case_decide; [lia | done]. }
  replace (Z.of_nat i + 1) with (Z.of_nat (S i)) by lia. rewrite IH.
  assert (forall k,
            (if Z.of_nat i <? Z.of_nat (length ls)
             then alter (setCells emptySlice) (Z.to_nat (Z.of_nat i)) ls
             else ls) !! k =
            if decide (k = i) then setCells emptySlice <$> ls !! k else ls !! k) as Hstep.
  { intros k. rewrite Nat2Z.id.
    destruct (Z.ltb_spec (Z.of_nat i) (Z.of_nat (length ls))) as [Hlt | Hge].
    - case_decide as Hk.
      + subst k. apply list_lookup_alter_eq.
      + by apply list_lookup_alter_ne.
    - case_decide as Hk; [|done]. subst k.
      rewrite (lookup_ge_None_2 ls i); [done | lia]. }
  rewrite Hstep. repeat case_decide; try lia; done.
Qed.

Lemma getCurrentLine_present (b : Buffer) (line : Line) :
  index (lines b) (RawLine b) = Some line -> getCurrentLine b = inl (RawLine b).
Proof.
  intros Hline%index_lt. unfold getCurrentLine.
  destruct (Z.ltb_spec (RawLine b) (Height b)); [done|]. unfold Height in *. lia.
Qed.

Lemma modifyLine_present (p : Z) (f : Line -> Line) (b : Buffer) (line : Line) :
  index (lines b) p = Some line ->
  modifyLine p f b = Done tt (withLines (<[Z.to_nat p := f line]> (lines b)) b).
Proof. intros Hline. unfold modifyLine. by rewrite Hline. Qed.

(** The cells of the cursor's line after [EraseLineToCursor] and after
    [EraseLineAfterCursor]. *)
Lemma EraseLineToCursor_current (b : Buffer) (line : Line) :
  index (lines b) (RawLine b) = Some line ->
  EraseLineToCursor b =
  Done tt (withLines
             (<[Z.to_nat (RawLine b) :=
                  setCells (eraseLoop (Z.to_nat (cursorX b + 1)) 0 (cells line)) line]>
                (lines b)) b).
Proof.
  intros Hline. unfold EraseLineToCursor.
  rewrite (getCurrentLine_present b line Hline).
  by rewrite (modifyLine_present _ _ _ line Hline).
Qed.

Lemma EraseLineAfterCursor_current (b : Buffer) (line : Line) :
  index (lines b) (RawLine b) = Some line ->
  EraseLineAfterCursor b =
  Done tt (withLines
             (<[Z.to_nat (RawLine b) :=
                  setCells (eraseLoop (Z.to_nat (len (cells line) - u16 (cursorX b + 1)))
                              (u16 (cursorX b + 1)) (cells line)) line]>
                (lines b)) b).
Proof.
  intros Hline. unfold EraseLineAfterCursor.
  rewrite (getCurrentLine_present b line Hline).
  by rewrite (modifyLine_present _ _ _ line Hline).
Qed.

(** X14. [EraseLineToCursor] on a line of the scrollback erases the cells of
    the columns up to the cursor's, that one included, as far as the line
    has them; it keeps the other cells, the number of cells, the wrapped
    flag, every other line and the cursor. *)
Theorem EraseLineToCursor_effect (b : Buffer) (line : Line) :
  index (lines b) (RawLine b) = Some line ->
  0 <= cursorX b ->
  exists b' line',
    EraseLineToCursor b = Done tt b' /\
    lines b' = <[Z.to_nat (RawLine b) := line']> (lines b) /\
    sameCursor b b' /\
    wrapped line' = wrapped line /\
    length (elems (cells line')) = length (elems (cells line)) /\
    (forall j : nat,
       elems (cells line') !! j =
       if decide (Z.of_nat j <= cursorX b) then erase <$> elems (cells line) !! j
       else elems (cells line) !! j).
Proof.
  intros Hline Hx. rewrite (EraseLineToCursor_current b line Hline).
  eexists _, _. split; [reflexivity|]. split; [reflexivity|].
  split; [apply sameCursor_withLines|]. split; [done|].
  assert (forall j : nat,
            elems (eraseLoop (Z.to_nat (cursorX b + 1)) 0 (cells line)) !! j =
            if decide (Z.of_nat j <= cursorX b) then erase <$> elems (cells line) !! j
            else elems (cells line) !! j) as Hcells.
  { intros j. change 0 with (Z.of_nat 0). rewrite eraseLoop_lookup.
    repeat case_decide; try lia; done. }
  split; [apply length_eraseLoop | exact Hcells].
Qed.

(** X15. [EraseLineAfterCursor] on a line of the scrollback, with the cursor
    before column 65535, erases the cells of the columns after the cursor's
    and keeps the cells up to it, the number of cells, the wrapped flag,
    every other line and the cursor. *)
Theorem EraseLineAfterCursor_effect (b : Buffer) (line : Line) :
  index (lines b) (RawLine b) = Some line ->
  0 <= cursorX b < 65535 ->
  exists b' line',
    EraseLineAfterCursor b = Done tt b' /\
    lines b' = <[Z.to_nat (RawLine b) := line']> (lines b) /\
    sameCursor b b' /\
    wrapped line' = wrapped line /\
    length (elems (cells line')) = length (elems (cells line)) /\
    (forall j : nat,
       elems (cells line') !! j =
       if decide (cursorX b < Z.of_nat j) then erase <$> elems (cells line) !! j
       else elems (cells line) !! j).
Proof.
  intros Hline Hx. rewrite (EraseLineAfterCursor_current b line Hline).
  eexists _, _. split; [reflexivity|]. split; [reflexivity|].
  split; [apply sameCursor_withLines|]. split; [done|].
  split; [apply length_eraseLoop|].
  intros j. cbn [cells setCells]. rewrite u16_small by lia.
  replace (cursorX b + 1) with (Z.of_nat (Z.to_nat (cursorX b + 1))) at 2 by lia.
  rewrite eraseLoop_lookup. unfold len.
  repeat case_decide; try lia; try done.
  rewrite (lookup_ge_None_2 (elems (cells line)) j); [done | lia].
Qed.

(** X16. [EraseLineToCursor] followed by [EraseLineAfterCursor] erases every
    cell of the cursor's line: the line holds its former cells, each one
    erased. *)
Theorem EraseLineToCursor_then_AfterCursor (b : Buffer) (line : Line) :
  index (lines b) (RawLine b) = Some line ->
  0 <= cursorX b < 65535 ->
  exists b' line',
    andThen EraseLineToCursor EraseLineAfterCursor b = Done tt b' /\
    lines b' = <[Z.to_nat (RawLine b) := line']> (lines b) /\
    elems (cells line') = erase <$> elems (cells line) /\
    wrapped line' = wrapped line.
Proof.
  intros Hline Hx. unfold andThen, bind.
  rewrite (EraseLineToCursor_current b line Hline).
  set (line1 := setCells _ line). set (b1 := withLines _ b).
  assert (RawLine b1 = RawLine b) as Hraw
    by (unfold b1; apply RawLine_same_height, length_insert).
  assert (index (lines b1) (RawLine b1) = Some line1) as Hline1.
  { rewrite Hraw. unfold b1. cbn [lines withLines].
    by apply index_insert_eq with line. }
  rewrite (EraseLineAfterCursor_current b1 line1 Hline1).
  eexists _, _. split; [reflexivity|]. split.
  { rewrite Hraw. unfold b1. cbn [lines withLines]. apply list_insert_insert_eq. }
  split; [|done]. cbn [cells setCells].
  apply list_eq. intros j. cbn [cursorX withLines].
  rewrite u16_small by lia.
  replace (cursorX b + 1) with (Z.of_nat (Z.to_nat (cursorX b + 1))) at 2 by lia.
  rewrite eraseLoop_lookup. unfold line1. cbn [cells setCells].
  change 0 with (Z.of_nat 0). rewrite eraseLoop_lookup, list_lookup_fmap.
  unfold len. cbn [cells setCells]. rewrite length_eraseLoop.
  repeat case_decide; try lia; try done.
  rewrite (lookup_ge_None_2 (elems (cells line)) j); [done | lia].
Qed.

(** ** Erasing the display *)

(** The lines after [EraseDisplayAfterCursor] and after
    [EraseDisplayToCursor], when the slice expression is in range. *)
Lemma EraseDisplayAfterCursor_current (b : Buffer) (line : Line) (cs : slice Cell) :
  index (lines b) (RawLine b) = Some line ->
  sliceTo (cells line) (cursorX b) = Some cs ->
  exists b',
    EraseDisplayAfterCursor b = Done tt b' /\
    sameCursor b b' /\
    forall j : nat,
      lines b' !! j =
      if decide (j < Z.to_nat (RawLine b))%nat then lines b !! j
      else if decide (j = Z.to_nat (RawLine b)) then Some (setCells cs line)
      else setCells emptySlice <$> lines b !! j.
Proof.
  intros Hline Hslice. pose proof (index_lt _ _ _ Hline) as Hraw.
  unfold EraseDisplayAfterCursor.
  rewrite (getCurrentLine_present b line Hline), Hline, Hslice.
  eexists. split; [reflexivity|]. split; [by unfold sameCursor|].
  intros j. cbn [lines withLines].
  rewrite RawLine_same_height by apply length_insert.
  rewrite Height_withLines, length_insert.
  replace (RawLine b + 1) with (Z.of_nat (S (Z.to_nat (RawLine b)))) by lia.
  rewrite clearLoop_lookup.
  destruct (decide (j = Z.to_nat (RawLine b))) as [-> | Hne].
  - rewrite list_lookup_insert_eq by lia.
    repeat case_decide; try lia; done.
  - rewrite list_lookup_insert_ne by done.
    repeat case_decide; try lia; try done.
    rewrite (lookup_ge_None_2 (lines b) j); [done | lia].
Qed.

Lemma EraseDisplayToCursor_current (b : Buffer) (line : Line) (cs : slice Cell) :
  index (lines b) (RawLine b) = Some line ->
  sliceFrom (cells line) (u16 (cursorX b + 1)) = Some cs ->
  exists b',
    EraseDisplayToCursor b = Done tt b' /\
    sameCursor b b' /\
    forall j : nat,
      lines b' !! j =
      if decide (j < Z.to_nat (RawLine b))%nat then setCells emptySlice <$> lines b !! j
      else if decide (j = Z.to_nat (RawLine b)) then Some (setCells cs line)
      else lines b !! j.
Proof.
  intros Hline Hslice. pose proof (index_lt _ _ _ Hline) as Hraw.
  unfold EraseDisplayToCursor.
  rewrite (getCurrentLine_present b line Hline), Hline, Hslice.
  eexists. split; [reflexivity|]. split; [by unfold sameCursor|].
  intros j. cbn [lines withLines].
  rewrite RawLine_same_height by apply length_insert.
  change 0 with (Z.of_nat 0). rewrite clearLoop_lookup.
  destruct (decide (j = Z.to_nat (RawLine b))) as [-> | Hne].
  - rewrite list_lookup_insert_eq by lia.
    repeat case_decide; try lia; done.
  - rewrite list_lookup_insert_ne by done.
    repeat case_decide; try lia; done.
Qed.

(** X17. [EraseDisplayAfterCursor] on a line of the scrollback panics
    exactly when the cursor's column is beyond the capacity of the line's
    cell slice. With the column within the cells it keeps the cells before
    the cursor's column and drops the others, empties the cells of every
    line below, and keeps the lines above, the wrapped flags, the number of
    lines and the cursor. *)
Theorem EraseDisplayAfterCursor_effect (b : Buffer) (line : Line) :
  index (lines b) (RawLine b) = Some line ->
  0 <= cursorX b ->
  (EraseDisplayAfterCursor b = Panic SliceBoundsOutOfRange <->
   cap (cells line) < cursorX b) /\
  (cursorX b <= len (cells line) ->
   exists b' line',
     EraseDisplayAfterCursor b = Done tt b' /\
     sameCursor b b' /\
     elems (cells line') = take (Z.to_nat (cursorX b)) (elems (cells line)) /\
     wrapped line' = wrapped line /\
     forall j : nat,
       lines b' !! j =
       if decide (j < Z.to_nat (RawLine b))%nat then lines b !! j
       else if decide (j = Z.to_nat (RawLine b)) then Some line'
       else setCells emptySlice <$> lines b !! j).
Proof.
  intros Hline Hx. split.
  - destruct (sliceTo (cells line) (cursorX b)) as [cs|] eqn:Hslice.
    + destruct (EraseDisplayAfterCursor_current b line cs Hline Hslice)
        as (b' & -> & _).
      split; [done|]. intros Hcap. unfold sliceTo in Hslice.
      destruct (Z.leb_spec 0 (cursorX b)), (Z.leb_spec (cursorX b) (cap (cells line)));
        try done; lia.
    + unfold EraseDisplayAfterCursor.
      rewrite (getCurrentLine_present b line Hline), Hline, Hslice.
      split; [|done]. intros _. unfold sliceTo in Hslice.
      destruct (Z.leb_spec 0 (cursorX b)), (Z.leb_spec (cursorX b) (cap (cells line)));
        try done; lia.
  - intros Hlen.
    assert (sliceTo (cells line) (cursorX b) =
            Some (Slice (take (Z.to_nat (cursorX b)) (elems (cells line) ++ spare (cells line)))
                        (drop (Z.to_nat (cursorX b)) (elems (cells line) ++ spare (cells line)))))
      as Hslice.
    { unfold sliceTo, cap, len in *.
      destruct (Z.leb_spec 0 (cursorX b)); [|lia].
      destruct (Z.leb_spec (cursorX b)
                  (Z.of_nat (length (elems (cells line)) + length (spare (cells line)))));
        [done | lia]. }
    destruct (EraseDisplayAfterCursor_current b line _ Hline Hslice)
      as (b' & Hb' & Hsame & Hlines).
    exists b', (setCells (Slice (take (Z.to_nat (cursorX b))
                                   (elems (cells line) ++ spare (cells line)))
                                (drop (Z.to_nat (cursorX b))
                                   (elems (cells line) ++ spare (cells line)))) line).
    split; [done|]. split; [done|]. split; [|done].
    cbn [cells setCells elems]. rewrite take_app_le; [done|]. unfold len in Hlen. lia.
Qed.

(** X18. [EraseDisplayToCursor] on a line of the scrollback panics exactly
    when the line has fewer cells than the cursor's column plus one (a
    [uint16] sum). Otherwise it drops the cells up to the cursor's column,
    so that the cells after it move to the first columns, empties the cells
    of every line above, and keeps the lines below, the wrapped flags, the
    number of lines and the cursor. *)
Theorem EraseDisplayToCursor_effect (b : Buffer) (line : Line) :
  index (lines b) (RawLine b) = Some line ->
  (EraseDisplayToCursor b = Panic SliceBoundsOutOfRange <->
   len (cells line) < u16 (cursorX b + 1)) /\
  (u16 (cursorX b + 1) <= len (cells line) ->
   exists b' line',
     EraseDisplayToCursor b = Done tt b' /\
     sameCursor b b' /\
     elems (cells line') = drop (Z.to_nat (u16 (cursorX b + 1))) (elems (cells line)) /\
     wrapped line' = wrapped line /\
     forall j : nat,
       lines b' !! j =
       if decide (j < Z.to_nat (RawLine b))%nat then setCells emptySlice <$> lines b !! j
       else if decide (j = Z.to_nat (RawLine b)) then Some line'
       else lines b !! j).
Proof.
  intros Hline. pose proof (u16_range (cursorX b + 1)) as Hu. unfold is_u16 in Hu.
  split.
  - destruct (sliceFrom (cells line) (u16 (cursorX b + 1))) as [cs|] eqn:Hslice.
    + destruct (EraseDisplayToCursor_current b line cs Hline Hslice) as (b' & -> & _).
      split; [done|]. intros Hlen. unfold sliceFrom in Hslice.
      destruct (Z.leb_spec 0 (u16 (cursorX b + 1))),
        (Z.leb_spec (u16 (cursorX b + 1)) (len (cells line))); try done; lia.
    + unfold EraseDisplayToCursor.
      rewrite (getCurrentLine_present b line Hline), Hline, Hslice.
      split; [|done]. intros _. unfold sliceFrom in Hslice.
      destruct (Z.leb_spec 0 (u16 (cursorX b + 1))),
        (Z.leb_spec (u16 (cursorX b + 1)) (len (cells line))); try done; lia.
  - intros Hlen.
    assert (sliceFrom (cells line) (u16 (cursorX b + 1)) =
            Some (Slice (drop (Z.to_nat (u16 (cursorX b + 1))) (elems (cells line)))
                        (spare (cells line)))) as Hslice.
    { unfold sliceFrom.
      destruct (Z.leb_spec 0 (u16 (cursorX b + 1))); [|lia].
      destruct (Z.leb_spec (u16 (cursorX b + 1)) (len (cells line))); [done | lia]. }
    destruct (EraseDisplayToCursor_current b line _ Hline Hslice)
      as (b' & Hb' & Hsame & Hlines).
    by exists b', (setCells (Slice (drop (Z.to_nat (u16 (cursorX b + 1))) (elems (cells line)))
                               (spare (cells line))) line).
Qed.

(** X19. The cells that [EraseDisplayAfterCursor] drops from the cursor's
    line stay in the backing array of the line's slice: a second
    [EraseDisplayAfterCursor] with the cursor further right, within the
    former cells, brings them back. After both calls the line holds its
    former cells before the second column. *)
Theorem EraseDisplayAfterCursor_restores (b : Buffer) (line : Line) (col : Z) :
  index (lines b) (RawLine b) = Some line ->
  0 <= cursorX b <= col ->
  col <= len (cells line) ->
  exists b1 b2 line2,
    EraseDisplayAfterCursor b = Done tt b1 /\
    EraseDisplayAfterCursor (withCursorX col b1) = Done tt b2 /\
    index (lines b2) (RawLine b2) = Some line2 /\
    elems (cells line2) = take (Z.to_nat col) (elems (cells line)).
Proof.
  intros Hline Hx Hcol. pose proof (index_lt _ _ _ Hline) as Hraw.
  set (array := elems (cells line) ++ spare (cells line)).
  assert (forall k, 0 <= k <= len (cells line) ->
            forall cs, elems cs ++ spare cs = array ->
            sliceTo cs k = Some (Slice (take (Z.to_nat k) array) (drop (Z.to_nat k) array)))
    as Hslice.
  { intros k Hk cs Harray. unfold sliceTo, cap.
    rewrite <- length_app, Harray. unfold array at 1. rewrite length_app.
    unfold len in Hk.
    destruct (Z.leb_spec 0 k); [|lia].
    destruct (Z.leb_spec k (Z.of_nat (length (elems (cells line)) +
                                       length (spare (cells line))))); [done | lia]. }
  destruct (EraseDisplayAfterCursor_current b line _ Hline
              (Hslice (cursorX b) ltac:(lia) (cells line) eq_refl))
    as (b1 & Hb1 & Hsame1 & Hlines1).
  set (line1 := setCells _ line) in Hlines1.
  assert (Height b1 = Height b) as Hheight1
    by (by eapply (erase_extends CallEraseDisplayAfterCursor)).
  set (b1' := withCursorX col b1).
  assert (RawLine b1' = RawLine b) as Hraw1.
  { destruct Hsame1 as (_ & Hy & _ & Hvh).
    rewrite !RawLine_max. change (Height b1') with (Height b1).
    cbn [cursorY viewHeight withCursorX b1']. by rewrite Hheight1, Hy, Hvh. }
  assert (index (lines b1') (RawLine b1') = Some line1) as Hline1.
  { rewrite Hraw1. apply index_Some. split; [lia|]. cbn [lines withCursorX b1'].
    rewrite Hlines1. repeat case_decide; try lia; done. }
  assert (elems (cells line1) ++ spare (cells line1) = array) as Harray1
    by apply take_drop.
  destruct (EraseDisplayAfterCursor_current b1' line1 _ Hline1
              (Hslice col ltac:(lia) (cells line1) Harray1))
    as (b2 & Hb2 & Hsame2 & Hlines2).
  exists b1, b2, (setCells (Slice (take (Z.to_nat col) array) (drop (Z.to_nat col) array)) line1).
  split; [done|]. split; [done|]. split.
  - assert (RawLine b2 = RawLine b1') as ->.
    { destruct Hsame2 as (_ & Hy & _ & Hvh).
      assert (Height b2 = Height b1') as Hheight2
        by (by eapply (erase_extends CallEraseDisplayAfterCursor)).
      by rewrite !RawLine_max, Hy, Hvh, Hheight2. }
    apply index_Some. split; [lia|]. rewrite Hlines2.
    repeat case_decide; try lia; done.
  - cbn [cells setCells elems]. unfold array. rewrite take_app_le; [done|].
    unfold len in Hcol. lia.
Qed.


End Properties.

(** ** The properties at concrete buffers *)

(** The raw-line condition of C7 holds on a new buffer, where the five erase
    operations change nothing. *)
Lemma erase_missing_line_noop_new_buffer :
  RawLine (exampleBuffer 80 24) >= Height (exampleBuffer 80 24) /\
  EraseLine (exampleBuffer 80 24) = Done tt (exampleBuffer 80 24) /\
  EraseDisplayToCursor (exampleBuffer 80 24) = Done tt (exampleBuffer 80 24).
Proof.
  assert (RawLine (exampleBuffer 80 24) >= Height (exampleBuffer 80 24))
    as Hraw by (vm_compute; discriminate).
  split; [exact Hraw|].
  destruct (erase_missing_line_noop (exampleBuffer 80 24) Hraw)
    as (H1 & _ & _ & _ & H5).
  split; [exact H1 | exact H5].
Defined.

(** [SetPosition(viewWidth, 0)] on a view of 80 columns and 24 rows. *)
Lemma SetPosition_clamps_80_0 :
  exists b',
    SetPosition 80 0 (exampleBuffer 80 24) = Done tt b' /\
    cursorX b' = 79 /\ cursorY b' = 0.
Proof.
  destruct (@SetPosition_clamps exampleEnv (exampleBuffer 80 24) 80 0)
    as (b' & Hset & Hx & _ & _ & Hy & _); [cbn; lia | cbn; lia |].
  exists b'. split; [exact Hset|].
  split; [apply Hx; cbn; lia | apply Hy; cbn; lia].
Defined.



(** Three lines of scrollback seen through a view of two rows. *)
Lemma GetVisibleLines_bottom_3_2 :
  performAll [CallWrite [97; 10; 98; 10; 99]] (exampleBuffer 80 2)
  = Done tt (stateAfter [CallWrite [97; 10; 98; 10; 99]] (exampleBuffer 80 2)) /\
  Height (stateAfter [CallWrite [97; 10; 98; 10; 99]] (exampleBuffer 80 2)) = 3 /\
  Z.of_nat (length (GetVisibleLines
     (stateAfter [CallWrite [97; 10; 98; 10; 99]] (exampleBuffer 80 2)))) = 2 /\
  last (GetVisibleLines (stateAfter [CallWrite [97; 10; 98; 10; 99]] (exampleBuffer 80 2)))
  = index (lines (stateAfter [CallWrite [97; 10; 98; 10; 99]] (exampleBuffer 80 2))) 2.
Proof.
  split; [vm_compute; reflexivity|]. split; [reflexivity|].
  destruct (GetVisibleLines_bottom
              (stateAfter [CallWrite [97; 10; 98; 10; 99]] (exampleBuffer 80 2)))
    as (_ & Hlen & Hlast).
  { vm_compute. discriminate. }
  { reflexivity. }
  split; [exact Hlen|]. apply Hlast. vm_compute. discriminate.
Defined.

(** C5 as it is stated fails on a view without rows: the buffer below has
    one line, more than the view has rows, [GetVisibleLines] returns no line,
    and so has no last element to equal [lines[H-1]], which is there. *)
Lemma GetVisibleLines_empty_view :
  exists b,
    performAll [CallWrite [97]; CallResizeView 80 0] (exampleBuffer 80 1)
    = Done tt b /\
    viewHeight b < Height b /\
    GetVisibleLines b = [] /\
    last (GetVisibleLines b) = None /\
    index (lines b) (Height b - 1) <> None.
Proof.
  eexists. split; [reflexivity|].
  split; [reflexivity|]. split; [reflexivity|]. split; [reflexivity|].
  discriminate.
Qed.

(** Three runes and a line feed on a view of three columns and two rows. *)
Lemma full_row_then_line_feed_3_2 :
  exists b2,
    Write [97; 98; 99; 10] (exampleBuffer 3 2) = Done tt b2 /\
    Height b2 = 2 /\ cursorX b2 = 0 /\ cursorY b2 = 1.
Proof.
  destruct (@full_row_then_line_feed exampleEnv 3 2 0 [97; 98; 99])
    as (b1 & b2 & l0 & _ & _ & _ & _ & _ & _ & _ & Hall & _ & Hheight & Hx & Hy).
  - lia.
  - lia.
  - reflexivity.
  - repeat constructor; discriminate.
  - exists b2. split; [exact Hall|]. split; [exact Hheight|].
    split; [exact Hx | exact Hy].
Defined.

(** ** Further properties at concrete buffers *)

Ltac by_compute :=
  vm_compute; repeat split;
  first [reflexivity | discriminate | (intros; discriminate) | by repeat constructor].

Lemma mutators_keep_scrollback_Clear :
  Height exampleRow <= Height (stateAfter [CallClear] exampleRow) /\
  viewWidth (stateAfter [CallClear] exampleRow) = 80.
Proof.
  destruct (mutators_keep_scrollback CallClear exampleRow (stateAfter [CallClear] exampleRow))
    as (Hh & _ & _ & Hview & _); [reflexivity|].
  split; [exact Hh|]. by destruct (Hview I) as [-> _].
Defined.

Lemma cursor_stays_in_view_SetPosition :
  inView (stateAfter [CallSetPosition 100 5] exampleRow).
Proof.
  apply (cursor_stays_in_view (CallSetPosition 100 5) exampleRow); by_compute.
Defined.

Lemma guarded_mutators_return_Write :
  exists b', perform (CallWrite [100; 10; 101]) exampleRow = Done tt b'.
Proof.
  apply guarded_mutators_return; [by_compute|].
  repeat constructor; discriminate.
Defined.

Lemma ensureLinesExist_exits_iff_row_5 :
  exists b',
    ensureLinesExistToRawHeight (stateAfter [CallSetPosition 0 5] exampleRow)
    = Done tt b' /\
    Height b' = 6.
Proof.
  destruct (ensureLinesExist_exits_iff (stateAfter [CallSetPosition 0 5] exampleRow))
    as (_ & Hdone & _); [by_compute|].
  destruct Hdone as (b' & Hb' & Hlines & _); [by_compute|].
  exists b'. split; [exact Hb'|]. unfold Height. rewrite Hlines. reflexivity.
Defined.


Lemma NewLine_panics_iff_new_buffer :
  NewLine (exampleBuffer 80 24) = Panic IndexOutOfRange /\
  exists b', NewLine exampleRow = Done tt b'.
Proof.
  split.
  - apply (NewLine_panics_iff (exampleBuffer 80 24)); by_compute.
  - apply (NewLine_panics_iff exampleRow); [by_compute|]. left. discriminate.
Defined.

Lemma NewLine_scrolls_example :
  exists b',
    NewLine exampleScrolled = Done tt b' /\
    GetVisibleLines b' = drop 1 (GetVisibleLines exampleScrolled) ++ [newLine].
Proof.
  destruct (NewLine_scrolls exampleScrolled) as (b' & Hb' & _ & Hvisible & _);
    try by_compute.
  exists b'. split; [exact Hb' | exact Hvisible].
Defined.

Lemma CarriageReturn_column_zero_example :
  exists b', CarriageReturn exampleRow = Done tt b' /\ cursorX b' = 0.
Proof.
  destruct (CarriageReturn_column_zero exampleRow) as (b' & Hb' & Hx & _);
    [by_compute|].
  exists b'. split; [exact Hb' | exact Hx].
Defined.

Lemma MovePosition_clamps_example :
  exists b',
    MovePosition (-5) 100 exampleRow = Done tt b' /\
    cursorX b' = 0 /\ cursorY b' = 23.
Proof.
  destruct (MovePosition_clamps (-5) 100 exampleRow) as (b' & Hb' & Hx & Hy & _);
    try by_compute.
  exists b'. split; [exact Hb'|]. split; [rewrite Hx | rewrite Hy]; reflexivity.
Defined.

Lemma GetVisibleLines_suffix_example :
  GetVisibleLines exampleRow = lines exampleRow /\
  Z.of_nat (length (GetVisibleLines exampleScrolled)) = 2.
Proof.
  split.
  - apply (GetVisibleLines_suffix exampleRow); by_compute.
  - destruct (GetVisibleLines_suffix exampleScrolled) as (_ & -> & _); by_compute.
Defined.

Lemma GetCell_of_visible_line_example :
  GetCell 1 0 exampleRow = Done (Some (exampleCell 98)) exampleRow.
Proof.
  rewrite (GetCell_of_visible_line exampleRow 1 0); by_compute.
Defined.

Lemma Clear_blank_screen_example :
  exists b',
    Clear exampleRow = Done tt b' /\
    GetCell 1 0 b' = Done None b' /\
    RawLine b' = 1.
Proof.
  destruct (Clear_blank_screen exampleRow) as (b' & Hb' & _ & Hcell & Hraw);
    [by_compute|].
  exists b'. split; [exact Hb'|]. split.
  - apply Hcell. by_compute.
  - rewrite Hraw; by_compute.
Defined.

Lemma Write_then_GetCell_example :
  exists b',
    Write [100] exampleRow = Done tt b' /\
    GetCell 3 0 b' = Done (Some (exampleCell 100)) b' /\
    cursorX b' = 4.
Proof.
  destruct (Write_then_GetCell 100 exampleRow) as (b' & Hb' & Hcell & Hx & _);
    try by_compute.
  exists b'. split; [exact Hb'|]. split; [exact Hcell | exact Hx].
Defined.

Lemma EraseLineToCursor_effect_example :
  exists b', EraseLineToCursor (stateAfter [CallSetPosition 1 0] exampleRow) = Done tt b'.
Proof.
  destruct (EraseLineToCursor_effect (stateAfter [CallSetPosition 1 0] exampleRow)
              (currentLine (stateAfter [CallSetPosition 1 0] exampleRow)))
    as (b' & line' & Hb' & _); try by_compute.
  by exists b'.
Defined.

Lemma EraseLineAfterCursor_effect_example :
  exists b', EraseLineAfterCursor (stateAfter [CallSetPosition 1 0] exampleRow) = Done tt b'.
Proof.
  destruct (EraseLineAfterCursor_effect (stateAfter [CallSetPosition 1 0] exampleRow)
              (currentLine (stateAfter [CallSetPosition 1 0] exampleRow)))
    as (b' & line' & Hb' & _); try by_compute.
  by exists b'.
Defined.

Lemma EraseLineToCursor_then_AfterCursor_example :
  exists b' line',
    andThen EraseLineToCursor EraseLineAfterCursor
      (stateAfter [CallSetPosition 1 0] exampleRow) = Done tt b' /\
    elems (cells line') = [exampleCell 0; exampleCell 0; exampleCell 0].
Proof.
  destruct (EraseLineToCursor_then_AfterCursor
              (stateAfter [CallSetPosition 1 0] exampleRow)
              (currentLine (stateAfter [CallSetPosition 1 0] exampleRow)))
    as (b' & line' & Hb' & _ & Hcells & _); try by_compute.
  exists b', line'. split; [exact Hb'|]. rewrite Hcells. reflexivity.
Defined.

Lemma EraseDisplayAfterCursor_effect_example :
  exists b' line',
    EraseDisplayAfterCursor (stateAfter [CallSetPosition 1 0] exampleRow) = Done tt b' /\
    elems (cells line') = [exampleCell 97].
Proof.
  destruct (EraseDisplayAfterCursor_effect (stateAfter [CallSetPosition 1 0] exampleRow)
              (currentLine (stateAfter [CallSetPosition 1 0] exampleRow)))
    as (_ & Hdone); try by_compute.
  destruct Hdone as (b' & line' & Hb' & _ & Hcells & _); [by_compute|].
  exists b', line'. split; [exact Hb'|]. rewrite Hcells. reflexivity.
Defined.

Lemma EraseDisplayToCursor_effect_example :
  exists b' line',
    EraseDisplayToCursor (stateAfter [CallSetPosition 1 0] exampleRow) = Done tt b' /\
    elems (cells line') = [exampleCell 99].
Proof.
  destruct (EraseDisplayToCursor_effect (stateAfter [CallSetPosition 1 0] exampleRow)
              (currentLine (stateAfter [CallSetPosition 1 0] exampleRow)))
    as (_ & Hdone); try by_compute.
  destruct Hdone as (b' & line' & Hb' & _ & Hcells & _); [by_compute|].
  exists b', line'. split; [exact Hb'|]. rewrite Hcells. reflexivity.
Defined.

Lemma EraseDisplayAfterCursor_restores_example :
  exists b1 b2 line2,
    EraseDisplayAfterCursor (stateAfter [CallSetPosition 1 0] exampleRow) = Done tt b1 /\
    EraseDisplayAfterCursor (withCursorX 3 b1) = Done tt b2 /\
    elems (cells line2) = [exampleCell 97; exampleCell 98; exampleCell 99].
Proof.
  destruct (EraseDisplayAfterCursor_restores (stateAfter [CallSetPosition 1 0] exampleRow)
              (currentLine (stateAfter [CallSetPosition 1 0] exampleRow)) 3)
    as (b1 & b2 & line2 & Hb1 & Hb2 & _ & Hcells); try by_compute.
  exists b1, b2, line2. split; [exact Hb1|]. split; [exact Hb2|].
  rewrite Hcells. reflexivity.
Defined.

